(** * TransmissionRPCClient: the session-aware RPC transport and its facade

    A shallow embedding of [src/TransmissionRPCClient.js].

    - JavaScript values are an inductive type [value]; property reads,
      truthiness, [&&], [===] against a literal, [Object.assign] with one
      argument and [JSON.stringify] are functions on it.
    - Exceptions are the sum [throws]; a [try]/[catch] is a [match] on it.
    - [new Promise(async (resolve, reject) => ...)] is modelled by its final
      state [promise]: resolved, rejected, or never settled because the
      async executor ended with an exception nobody observes.
    - The HTTP collaborator ([axios.request]) is a black box: a [Server]
      state and a function from a request to an outcome, both Section
      variables.
    - The [while (true)] loop of [http] is run for a budget of iterations;
      the run is total and records every exchange it made. *)

From Stdlib Require Import ZArith List String Bool Lia.
Import ListNotations.
Local Open Scope string_scope.
Local Open Scope list_scope.
Local Open Scope Z_scope.
Set Warnings "-register-all".

(** ** JavaScript values *)

Inductive ErrorKind := TypeError | ReferenceError.

(** Primitives that [Object(...)] can wrap. *)
Inductive prim :=
| PBool (b : bool)
| PNumber (z : Z)
| PNaN
| PString (s : string)
| PBigInt (z : Z).

(** Numbers are the integer-valued ones plus NaN; objects are their own
    enumerable data properties in insertion order. *)
Inductive value :=
| VUndefined
| VNull
| VPrim (p : prim)
| VBoxed (p : prim)                      (* wrapper object: Object(p) *)
| VArray (items : list value)
| VObject (props : list (string * value))
| VError (kind : ErrorKind).             (* a native Error instance *)

Definition VBool (b : bool) : value := VPrim (PBool b).
Definition VNumber (z : Z) : value := VPrim (PNumber z).
Definition VString (s : string) : value := VPrim (PString s).

(** ** Exceptions *)

Inductive throws (A : Type) :=
| Return (a : A)
| Throw (e : value).
Arguments Return {A} a.
Arguments Throw {A} e.

Definition bind {A B} (m : throws A) (k : A -> throws B) : throws B :=
  match m with
  | Return a => k a
  | Throw e => Throw e
  end.

Notation "x <- m ;; k" := (bind m (fun x => k))
  (at level 61, m at next level, right associativity).

(** ** Operators the source uses *)

Fixpoint lookup (key : string) (props : list (string * value)) : value :=
  match props with
  | [] => VUndefined
  | (k, v) :: rest => if String.eqb k key then v else lookup key rest
  end.

Definition nullish (v : value) : bool :=
  match v with
  | VUndefined | VNull => true
  | _ => false
  end.

(** [v.key] and [v[key]]: a TypeError on [undefined] and [null]; own data
    properties on an object; [undefined] elsewhere (the program reads only
    the names response, status, headers, data, result, arguments and the
    session header, none of which a primitive, an array or an Error has). *)
Definition get (v : value) (key : string) : throws value :=
  match v with
  | VUndefined | VNull => Throw (VError TypeError)
  | VObject props => Return (lookup key props)
  | _ => Return VUndefined
  end.

(** [v?.key] *)
Definition opt_get (v : value) (key : string) : value :=
  match v with
  | VObject props => lookup key props
  | _ => VUndefined
  end.

Definition truthy_prim (p : prim) : bool :=
  match p with
  | PBool b => b
  | PNumber z => negb (z =? 0)
  | PNaN => false
  | PString s => negb (String.eqb s EmptyString)
  | PBigInt z => negb (z =? 0)
  end.

Definition truthy (v : value) : bool :=
  match v with
  | VUndefined | VNull => false
  | VPrim p => truthy_prim p
  | _ => true
  end.

(** [a && b] *)
Definition js_and (a b : value) : value := if truthy a then b else a.

(** [v === 409], [v === 401] *)
Definition strict_eq_number (v : value) (n : Z) : bool :=
  match v with
  | VPrim (PNumber z) => z =? n
  | _ => false
  end.

(** [v === "success"] *)
Definition strict_eq_string (v : value) (s : string) : bool :=
  match v with
  | VPrim (PString t) => String.eqb t s
  | _ => false
  end.

(** [Object.assign(target)] with no sources: ToObject of the target. *)
Definition Object_assign (target : value) : throws value :=
  match target with
  | VUndefined | VNull => Throw (VError TypeError)
  | VPrim p => Return (VBoxed p)
  | _ => Return target
  end.

(** A parameter with a default: the default applies to [undefined]. *)
Definition default_param (v d : value) : value :=
  match v with
  | VUndefined => d
  | _ => v
  end.

(** ** JSON documents

    [JSON.stringify] yields text; the text is represented by the document
    it denotes. *)

Inductive json :=
| JNull
| JBool (b : bool)
| JNum (z : Z)
| JStr (s : string)
| JArr (items : list json)
| JObj (members : list (string * json)).

(** A primitive as JSON: NaN becomes null, a BigInt cannot be serialised. *)
Definition stringify_prim (p : prim) : throws json :=
  match p with
  | PBool b => Return (JBool b)
  | PNumber z => Return (JNum z)
  | PNaN => Return JNull
  | PString s => Return (JStr s)
  | PBigInt _ => Throw (VError TypeError)
  end.

(** [JSON.stringify(v)]; [None] is the result [undefined].  An array holds
    null for an element that has no JSON form, an object leaves such a
    property out. *)
Fixpoint JSON_stringify (v : value) : throws (option json) :=
  match v with
  | VUndefined => Return None
  | VNull => Return (Some JNull)
  | VPrim p => j <- stringify_prim p ;; Return (Some j)
  | VBoxed p => j <- stringify_prim p ;; Return (Some j)
  | VArray items =>
      js <- (fix elements (l : list value) : throws (list json) :=
               match l with
               | [] => Return []
               | x :: rest =>
                   o <- JSON_stringify x ;;
                   js <- elements rest ;;
                   Return (match o with Some j => j | None => JNull end :: js)
               end) items ;;
      Return (Some (JArr js))
  | VObject props =>
      ms <- (fix members (l : list (string * value))
               : throws (list (string * json)) :=
               match l with
               | [] => Return []
               | (k, x) :: rest =>
                   o <- JSON_stringify x ;;
                   ms <- members rest ;;
                   Return (match o with Some j => (k, j) :: ms | None => ms end)
               end) props ;;
      Return (Some (JObj ms))
  | VError _ => Return (Some (JObj []))
  end.

(** ** Promises

    The state a promise built by [new Promise(async (resolve, reject) =>
    ...)] ends in.  An exception that leaves the async executor rejects the
    executor's own promise, which nobody holds; the promise handed to the
    caller is then never settled. *)

Inductive promise :=
| Resolved (v : value)
| Rejected (e : value)
| Pending (unhandled : value).

(** ** The client object *)

Record Client := {
  url : string;
  sessionId : value;
  auth : string
}.

Definition set_sessionId (c : Client) (v : value) : Client :=
  {| url := url c; sessionId := v; auth := auth c |}.

(** The configuration object handed to [axios.request]. *)
Record Request := {
  req_url : string;
  req_method : string;
  req_headers : list (string * value);
  req_data : option json
}.

Definition session_header (r : Request) : value :=
  lookup "x-transmission-session-id" (req_headers r).

(** What [await axios.request(request)] does: continue with a response
    object or throw. *)
Inductive AxiosOutcome :=
| Fulfilled (resp : value)
| Failed (e : value).

Definition exchange : Type := Request * AxiosOutcome.

(** [e?.response?.status] *)
Definition status_of (e : value) : value :=
  opt_get (opt_get e "response") "status".

(** [e.response.headers["x-transmission-session-id"]] *)
Definition challenge_header (e : value) : throws value :=
  r <- get e "response" ;;
  h <- get r "headers" ;;
  get h "x-transmission-session-id".

(** The object literal of lines 24-34. *)
Definition build_request (c : Client) (method : string) (keys : value)
  : throws Request :=
  data <- JSON_stringify
            (VObject [("method", VString method); ("arguments", keys)]) ;;
  Return {| req_url := url c;
            req_method := "post";
            req_headers :=
              [("Accept", VString "application/json");
               ("Content-Type", VString "application/json");
               ("x-transmission-session-id", sessionId c);
               ("Authorization", VString (("Basic " ++ auth c)%string))];
            req_data := data |}.

(** How one pass through the [catch] block of [http] ends. *)
Inductive handled :=
| Retry (c : Client)
| Settle (p : promise).

Definition http_catch (c : Client) (e : value) : handled :=
  if strict_eq_number (status_of e) 409 then
    match challenge_header e with
    | Return token => Retry (set_sessionId c token)
    | Throw err => Settle (Pending err)
    end
  else if strict_eq_number (status_of e) 401 then
    Settle (Pending (VString "Unauthorized to access RPC Server"))
  else
    Settle (Rejected e).

Section Transport.

Variable Server : Type.
Variable axios_request : Request -> Server -> AxiosOutcome * Server.

(** The platform's [new URL(url).toString()] and base64 encoder. *)
Variable URL_toString : string -> throws string.
Variable base64 : string -> string.

Definition constructor (url user password : string) : throws Client :=
  u <- URL_toString url ;;
  Return {| url := u;
            sessionId := VNull;
            auth := base64 ((user ++ ":" ++ password)%string) |}.

(** A call observed from outside: how its promise ended ([None]: the
    retry loop is still turning when the budget is spent), the client
    and server it leaves, and the exchanges it made, oldest first. *)
Record run := {
  result : option promise;
  client : Client;
  server : Server;
  exchanges : list exchange
}.

Definition finish (p : promise) (c : Client) (s : Server)
  (xs : list exchange) : run :=
  {| result := Some p; client := c; server := s; exchanges := xs |}.

Definition after (xs : list exchange) (r : run) : run :=
  {| result := result r; client := client r; server := server r;
     exchanges := xs ++ exchanges r |}.

(** The [try] block of [http]: what it evaluates to or throws. *)
Definition http_try (c : Client) (method : string) (keys : value)
  (s : Server) : throws value * Server * list exchange :=
  match build_request c method keys with
  | Throw e => (Throw e, s, [])
  | Return request =>
      let (out, s') := axios_request request s in
      (match out with
       | Fulfilled resp => get resp "data"
       | Failed e => Throw e
       end, s', [(request, out)])
  end.

(** [http(method, keys)], its loop run for at most [budget] passes. *)
Fixpoint http (budget : nat) (c : Client) (method : string) (keys : value)
  (s : Server) : run :=
  match budget with
  | O => {| result := None; client := c; server := s; exchanges := [] |}
  | S budget' =>
      let '(t, s', xs) := http_try c method keys s in
      match t with
      | Return data => finish (Resolved data) c s' xs
      | Throw e =>
          match http_catch c e with
          | Retry c' => after xs (http budget' c' method keys s')
          | Settle p => finish p c s' xs
          end
      end
  end.

(** *** The facade *)

(** [resp.result === "success" ? resp.arguments : null] *)
Definition arguments_or_null (resp : value) : throws value :=
  r <- get resp "result" ;;
  if strict_eq_string r "success" then get resp "arguments"
  else Return VNull.

(** [resp.result === "success" ? resp.arguments : resp.result] *)
Definition arguments_or_result (resp : value) : throws value :=
  r <- get resp "result" ;;
  if strict_eq_string r "success" then get resp "arguments"
  else get resp "result".

(** The end of an executor [try { ... resolve(v) } catch (e) { reject(e) }]
    whose [try] block evaluated to [body].  [reject_bound] tells whether
    the executor names its second parameter; where it does not,
    [reject(e)] is a ReferenceError thrown out of the [catch]. *)
Definition try_resolve (reject_bound : bool) (body : throws value)
  : promise :=
  match body with
  | Return v => Resolved v
  | Throw e =>
      if reject_bound then Rejected e else Pending (VError ReferenceError)
  end.

(** [const resp = await this.http(...); resolve(interpret(resp))] inside
    such an executor: the [await] continues on a resolved promise,
    throws on a rejected one, and never returns on one that is never
    settled. *)
Definition await_http (reject_bound : bool)
  (interpret : value -> throws value) (r : run) : run :=
  match result r with
  | Some (Resolved resp) =>
      finish (try_resolve reject_bound (interpret resp))
        (client r) (server r) (exchanges r)
  | Some (Rejected e) =>
      finish (try_resolve reject_bound (Throw e))
        (client r) (server r) (exchanges r)
  | Some (Pending _) | None => r
  end.

(** The five operations that build [Object.assign(ids && { ids })]. *)
Definition ids_operation (method : string) (budget : nat) (c : Client)
  (ids : value) (s : Server) : run :=
  match Object_assign (js_and ids (VObject [("ids", ids)])) with
  | Throw e => finish (try_resolve true (Throw e)) c s []
  | Return payload =>
      await_http true arguments_or_null (http budget c method payload s)
  end.

Definition startTorrents := ids_operation "torrent-start".
Definition startNowTorrents := ids_operation "torrent-start-now".
Definition stopTorrents := ids_operation "torrent-stop".
Definition verifyTorrents := ids_operation "torrent-verify".
Definition reannounceTorrents := ids_operation "torrent-reannounce".

Definition setTorrents (budget : nat) (c : Client) (fields : value)
  (s : Server) : run :=
  await_http true arguments_or_null (http budget c "torrent-set" fields s).

Definition default_fields : value :=
  VArray [VString "id"; VString "name"; VString "status";
          VString "downloadedEver"; VString "uploadedEver"].

Definition getTorrents (budget : nat) (c : Client) (ids fields : value)
  (s : Server) : run :=
  let ids := default_param ids (VNumber 0) in
  let fields := default_param fields default_fields in
  await_http true arguments_or_null
    (http budget c "torrent-get"
       (VObject [("fields", fields); ("ids", ids)]) s).

(** The operations [resolve(... ? resp.arguments : resp.result)] whose
    executor is [async (resolve, reject)]. *)
Definition keys_operation (method : string) (budget : nat) (c : Client)
  (keys : value) (s : Server) : run :=
  await_http true arguments_or_result (http budget c method keys s).

Definition addTorrent := keys_operation "torrent-add".
Definition removeTorrent := keys_operation "torrent-remove".
Definition moveTorrent := keys_operation "torrent-set-location".
Definition renameTorrent := keys_operation "torrent-rename-path".
Definition setSession := keys_operation "session-set".

Definition getSession (budget : nat) (c : Client) (fields : value)
  (s : Server) : run :=
  keys_operation "session-get" budget c (VObject [("fields", fields)]) s.

Definition sessionStats (budget : nat) (c : Client) (s : Server) : run :=
  keys_operation "session-stats" budget c VUndefined s.

Definition blocklistUpdate (budget : nat) (c : Client) (s : Server) : run :=
  keys_operation "blocklist-update" budget c VUndefined s.

Definition portTest (budget : nat) (c : Client) (s : Server) : run :=
  keys_operation "blocklist-update" budget c VUndefined s.

(** [disconnect]: the executor is [async (resolve)]; after the [await]
    it clears the token and resolves with nothing. *)
Definition disconnect (budget : nat) (c : Client) (s : Server) : run :=
  let r := http budget c "session-close" VUndefined s in
  match result r with
  | Some (Resolved _) =>
      finish (Resolved VUndefined) (set_sessionId (client r) VNull)
        (server r) (exchanges r)
  | Some (Rejected e) =>
      finish (try_resolve false (Throw e))
        (client r) (server r) (exchanges r)
  | Some (Pending _) | None => r
  end.

(** The four queue operations: the executor is [async (resolve)]. *)
Definition queue_operation (method : string) (budget : nat) (c : Client)
  (ids : value) (s : Server) : run :=
  await_http false arguments_or_result (http budget c method ids s).

Definition queueMoveTop := queue_operation "queue-move-top".
Definition queueMoveUp := queue_operation "queue-move-up".
Definition queueMoveDown := queue_operation "queue-move-down".
Definition queueMoveBottom := queue_operation "queue-move-bottom".

Definition freeSpace (budget : nat) (c : Client) (path : value)
  (s : Server) : run :=
  keys_operation "free-space" budget c (VObject [("path", path)]) s.

Definition groupSet := keys_operation "group-set".
Definition groupGet := keys_operation "group-get".

End Transport.

Arguments result {Server} r.
Arguments client {Server} r.
Arguments server {Server} r.
Arguments exchanges {Server} r.
Arguments finish {Server} p c s xs.
Arguments after {Server} xs r.
Arguments http_try {Server} axios_request c method keys s.
Arguments http {Server} axios_request budget c method keys s.
Arguments await_http {Server} reject_bound interpret r.
Arguments ids_operation {Server} axios_request method budget c ids s.
Arguments keys_operation {Server} axios_request method budget c keys s.
Arguments queue_operation {Server} axios_request method budget c ids s.
Arguments startTorrents {Server} axios_request budget c ids s.
Arguments startNowTorrents {Server} axios_request budget c ids s.
Arguments stopTorrents {Server} axios_request budget c ids s.
Arguments verifyTorrents {Server} axios_request budget c ids s.
Arguments reannounceTorrents {Server} axios_request budget c ids s.
Arguments setTorrents {Server} axios_request budget c fields s.
Arguments getTorrents {Server} axios_request budget c ids fields s.
Arguments addTorrent {Server} axios_request budget c keys s.
Arguments removeTorrent {Server} axios_request budget c keys s.
Arguments moveTorrent {Server} axios_request budget c keys s.
Arguments renameTorrent {Server} axios_request budget c keys s.
Arguments setSession {Server} axios_request budget c keys s.
Arguments getSession {Server} axios_request budget c fields s.
Arguments sessionStats {Server} axios_request budget c s.
Arguments blocklistUpdate {Server} axios_request budget c s.
Arguments portTest {Server} axios_request budget c s.
Arguments disconnect {Server} axios_request budget c s.
Arguments queueMoveTop {Server} axios_request budget c ids s.
Arguments queueMoveUp {Server} axios_request budget c ids s.
Arguments queueMoveDown {Server} axios_request budget c ids s.
Arguments queueMoveBottom {Server} axios_request budget c ids s.
Arguments freeSpace {Server} axios_request budget c path s.
Arguments groupSet {Server} axios_request budget c keys s.
Arguments groupGet {Server} axios_request budget c keys s.

(** ** Sequences of calls on one instance *)

Inductive call :=
| Http (method : string) (keys : value)
| StartTorrents (ids : value)
| StartNowTorrents (ids : value)
| StopTorrents (ids : value)
| VerifyTorrents (ids : value)
| ReannounceTorrents (ids : value)
| SetTorrents (fields : value)
| GetTorrents (ids fields : value)
| AddTorrent (keys : value)
| RemoveTorrent (keys : value)
| MoveTorrent (keys : value)
| RenameTorrent (keys : value)
| SetSession (keys : value)
| GetSession (fields : value)
| SessionStats
| BlocklistUpdate
| PortTest
| Disconnect
| QueueMoveTop (ids : value)
| QueueMoveUp (ids : value)
| QueueMoveDown (ids : value)
| QueueMoveBottom (ids : value)
| FreeSpace (path : value)
| GroupSet (keys : value)
| GroupGet (group : value).

Section Sessions.

Variable Server : Type.
Variable axios_request : Request -> Server -> AxiosOutcome * Server.

Definition invoke (budget : nat) (k : call) (c : Client) (s : Server)
  : run Server :=
  match k with
  | Http method keys => http axios_request budget c method keys s
  | StartTorrents ids => startTorrents axios_request budget c ids s
  | StartNowTorrents ids => startNowTorrents axios_request budget c ids s
  | StopTorrents ids => stopTorrents axios_request budget c ids s
  | VerifyTorrents ids => verifyTorrents axios_request budget c ids s
  | ReannounceTorrents ids => reannounceTorrents axios_request budget c ids s
  | SetTorrents fields => setTorrents axios_request budget c fields s
  | GetTorrents ids fields => getTorrents axios_request budget c ids fields s
  | AddTorrent keys => addTorrent axios_request budget c keys s
  | RemoveTorrent keys => removeTorrent axios_request budget c keys s
  | MoveTorrent keys => moveTorrent axios_request budget c keys s
  | RenameTorrent keys => renameTorrent axios_request budget c keys s
  | SetSession keys => setSession axios_request budget c keys s
  | GetSession fields => getSession axios_request budget c fields s
  | SessionStats => sessionStats axios_request budget c s
  | BlocklistUpdate => blocklistUpdate axios_request budget c s
  | PortTest => portTest axios_request budget c s
  | Disconnect => disconnect axios_request budget c s
  | QueueMoveTop ids => queueMoveTop axios_request budget c ids s
  | QueueMoveUp ids => queueMoveUp axios_request budget c ids s
  | QueueMoveDown ids => queueMoveDown axios_request budget c ids s
  | QueueMoveBottom ids => queueMoveBottom axios_request budget c ids s
  | FreeSpace path => freeSpace axios_request budget c path s
  | GroupSet keys => groupSet axios_request budget c keys s
  | GroupGet group => groupGet axios_request budget c group s
  end.

(** The calls of [ks] made one after the other on one instance, each
    started when the one before has ended; the history stops at a call
    whose loop outlives the budget. *)
Fixpoint session (budget : nat) (ks : list call) (c : Client) (s : Server)
  : list (call * run Server) :=
  match ks with
  | [] => []
  | k :: rest =>
      let r := invoke budget k c s in
      (k, r) ::
      match result r with
      | Some _ => session budget rest (client r) (server r)
      | None => []
      end
  end.

End Sessions.

Arguments invoke {Server} axios_request budget k c s.
Arguments session {Server} axios_request budget ks c s.

(** ** What a history shows *)

(** The token a 409 rejection hands over, when it has headers to read. *)
Definition challenge_token (x : exchange) : option value :=
  match snd x with
  | Failed e =>
      if strict_eq_number (status_of e) 409 then
        match challenge_header e with
        | Return token => Some token
        | Throw _ => None
        end
      else None
  | Fulfilled _ => None
  end.

(** The token of the last 409 among [xs], oldest first. *)
Fixpoint last_challenge (xs : list exchange) : option value :=
  match xs with
  | [] => None
  | x :: rest =>
      match last_challenge rest with
      | Some token => Some token
      | None => challenge_token x
      end
  end.

Definition token_after (held : value) (xs : list exchange) : value :=
  match last_challenge xs with
  | Some token => token
  | None => held
  end.

(** Every request of [xs] carries the token held when it is sent: [held]
    at first, then the token of the latest 409. *)
Fixpoint uses_held_token (held : value) (xs : list exchange) : Prop :=
  match xs with
  | [] => True
  | x :: rest =>
      session_header (fst x) = held /\
      uses_held_token (token_after held [x]) rest
  end.

Definition first_request (xs : list exchange) : option Request :=
  match xs with
  | [] => None
  | x :: _ => Some (fst x)
  end.

Definition resolved {Server : Type} (r : run Server) : bool :=
  match result r with
  | Some (Resolved _) => true
  | _ => false
  end.

Definition successful_disconnect {Server : Type} (kr : call * run Server)
  : bool :=
  match fst kr with
  | Disconnect => resolved (snd kr)
  | _ => false
  end.

(** The token held after one more call: null after a disconnect that
    resolved, otherwise the token of the call's last 409, otherwise the
    one held before. *)
Definition held_after {Server : Type} (held : value)
  (kr : call * run Server) : value :=
  if successful_disconnect kr then VNull
  else token_after held (exchanges (snd kr)).

Definition held_token {Server : Type} (initial : value)
  (h : list (call * run Server)) : value :=
  fold_left held_after h initial.

Definition all_exchanges {Server : Type} (h : list (call * run Server))
  : list exchange :=
  flat_map (fun kr => exchanges (snd kr)) h.

(** The first request of every call carries the token of the last 409
    received by any call before it. *)
Definition sends_last_challenge {Server : Type}
  (h : list (call * run Server)) : Prop :=
  forall before kr later request token,
    h = before ++ kr :: later ->
    first_request (exchanges (snd kr)) = Some request ->
    last_challenge (all_exchanges before) = Some token ->
    session_header request = token.

(** A call that started with client [c] sent every request with the token
    held at that moment and leaves the client holding the last one. *)
Definition tracks {Server : Type} (c : Client) (r : run Server) : Prop :=
  uses_held_token (sessionId c) (exchanges r) /\
  sessionId (client r) = token_after (sessionId c) (exchanges r).

(** The call got an HTTP success whose body is [body]. *)
Definition answered {Server : Type} (r : run Server) (body : value) : Prop :=
  exists xs request resp,
    exchanges r = xs ++ [(request, Fulfilled resp)] /\
    get resp "data" = Return body.


Definition json_is_object (j : json) : bool :=
  match j with
  | JObj _ => true
  | _ => false
  end.

(** A call that either was rejected with a TypeError before anything was
    sent, or sent requests whose arguments are all something other than a
    JSON object. *)
Definition rejects_or_sends_no_mapping {Server : Type} (method : string)
  (r : run Server) : Prop :=
  (result r = Some (Rejected (VError TypeError)) /\ exchanges r = [])
  \/
  ((exists x rest, exchanges r = x :: rest) /\
   Forall (fun x : exchange =>
             exists j,
               req_data (fst x) =
               Some (JObj [("method", JStr method); ("arguments", j)]) /\
               json_is_object j = false)
     (exchanges r)).

(** ** A server that answers from a script *)

Definition network_error : value :=
  VObject [("code", VString "ECONNREFUSED")].

Definition scripted (request : Request) (script : list AxiosOutcome)
  : AxiosOutcome * list AxiosOutcome :=
  match script with
  | [] => (Failed network_error, [])
  | out :: rest => (out, rest)
  end.

(** The error axios throws for a response with an error status. *)
Definition status_error (status : Z) (headers : list (string * value))
  : AxiosOutcome :=
  Failed (VObject [("response",
                    VObject [("status", VNumber status);
                             ("headers", VObject headers)])]).

Definition challenge (token : string) : AxiosOutcome :=
  status_error 409 [("x-transmission-session-id", VString token)].

Definition ok (body : value) : AxiosOutcome :=
  Fulfilled (VObject [("status", VNumber 200); ("data", body)]).

Definition success (arguments : value) : value :=
  VObject [("result", VString "success"); ("arguments", arguments)].

Definition fresh_client : Client :=
  {| url := "http://localhost:9091/transmission/rpc";
     sessionId := VNull;
     auth := "dXNlcjpwYXNz" |}.

(** Bodies and scripts of the scenarios. *)

Definition torrents_body : value :=
  success (VObject [("torrents", VArray [])]).

Definition no_such_torrent : value :=
  VObject [("result", VString "no such torrent")].

Definition unauthorized : AxiosOutcome := status_error 401 [].


Definition challenge_then_torrents : list AxiosOutcome :=
  [challenge "abc123"; ok torrents_body].

Definition get_disconnect_stats : list call :=
  [GetTorrents VUndefined VUndefined; Disconnect; SessionStats].

Definition three_answers : list AxiosOutcome :=
  [challenge "abc123"; ok torrents_body; ok (success VNull);
   ok (success VNull)].

(** ** The facade read as a table

    What each public operation hands to [http] and how its executor reads
    the answer; [invoke] is proved to follow the table. *)

Definition remote_method (k : call) : string :=
  match k with
  | Http method _ => method
  | StartTorrents _ => "torrent-start"
  | StartNowTorrents _ => "torrent-start-now"
  | StopTorrents _ => "torrent-stop"
  | VerifyTorrents _ => "torrent-verify"
  | ReannounceTorrents _ => "torrent-reannounce"
  | SetTorrents _ => "torrent-set"
  | GetTorrents _ _ => "torrent-get"
  | AddTorrent _ => "torrent-add"
  | RemoveTorrent _ => "torrent-remove"
  | MoveTorrent _ => "torrent-set-location"
  | RenameTorrent _ => "torrent-rename-path"
  | SetSession _ => "session-set"
  | GetSession _ => "session-get"
  | SessionStats => "session-stats"
  | BlocklistUpdate => "blocklist-update"
  | PortTest => "blocklist-update"
  | Disconnect => "session-close"
  | QueueMoveTop _ => "queue-move-top"
  | QueueMoveUp _ => "queue-move-up"
  | QueueMoveDown _ => "queue-move-down"
  | QueueMoveBottom _ => "queue-move-bottom"
  | FreeSpace _ => "free-space"
  | GroupSet _ => "group-set"
  | GroupGet _ => "group-get"
  end.

(** The second argument of the call to [http]. *)
Definition payload_of (k : call) : throws value :=
  match k with
  | Http _ keys => Return keys
  | StartTorrents ids | StartNowTorrents ids | StopTorrents ids
  | VerifyTorrents ids | ReannounceTorrents ids =>
      Object_assign (js_and ids (VObject [("ids", ids)]))
  | SetTorrents fields => Return fields
  | GetTorrents ids fields =>
      Return (VObject [("fields", default_param fields default_fields);
                       ("ids", default_param ids (VNumber 0))])
  | AddTorrent keys | RemoveTorrent keys | MoveTorrent keys
  | RenameTorrent keys | SetSession keys | GroupSet keys | GroupGet keys =>
      Return keys
  | GetSession fields => Return (VObject [("fields", fields)])
  | SessionStats | BlocklistUpdate | PortTest | Disconnect =>
      Return VUndefined
  | QueueMoveTop ids | QueueMoveUp ids | QueueMoveDown ids
  | QueueMoveBottom ids => Return ids
  | FreeSpace path => Return (VObject [("path", path)])
  end.

(** Whether the executor names its second parameter [reject]. *)
Definition names_reject (k : call) : bool :=
  match k with
  | Disconnect | QueueMoveTop _ | QueueMoveUp _ | QueueMoveDown _
  | QueueMoveBottom _ => false
  | _ => true
  end.

(** What the executor resolves with, given the body [http] returned. *)
Definition interpret_of (k : call) (body : value) : throws value :=
  match k with
  | Http _ _ => Return body
  | StartTorrents _ | StartNowTorrents _ | StopTorrents _
  | VerifyTorrents _ | ReannounceTorrents _ | SetTorrents _
  | GetTorrents _ _ => arguments_or_null body
  | Disconnect => Return VUndefined
  | _ => arguments_or_result body
  end.

(** The promise of the operation, given the promise of its [http] call. *)
Definition settle (k : call) (h : option promise) : option promise :=
  match h with
  | Some (Resolved body) =>
      Some (try_resolve (names_reject k) (interpret_of k body))
  | Some (Rejected e) => Some (try_resolve (names_reject k) (Throw e))
  | Some (Pending u) => Some (Pending u)
  | None => None
  end.

Definition is_http (k : call) : bool :=
  match k with
  | Http _ _ => true
  | _ => false
  end.

(** The same public operation, whatever the arguments. *)
Definition same_operation (k k' : call) : bool :=
  match k, k' with
  | Http _ _, Http _ _
  | StartTorrents _, StartTorrents _
  | StartNowTorrents _, StartNowTorrents _
  | StopTorrents _, StopTorrents _
  | VerifyTorrents _, VerifyTorrents _
  | ReannounceTorrents _, ReannounceTorrents _
  | SetTorrents _, SetTorrents _
  | GetTorrents _ _, GetTorrents _ _
  | AddTorrent _, AddTorrent _
  | RemoveTorrent _, RemoveTorrent _
  | MoveTorrent _, MoveTorrent _
  | RenameTorrent _, RenameTorrent _
  | SetSession _, SetSession _
  | GetSession _, GetSession _
  | SessionStats, SessionStats
  | BlocklistUpdate, BlocklistUpdate
  | PortTest, PortTest
  | Disconnect, Disconnect
  | QueueMoveTop _, QueueMoveTop _
  | QueueMoveUp _, QueueMoveUp _
  | QueueMoveDown _, QueueMoveDown _
  | QueueMoveBottom _, QueueMoveBottom _
  | FreeSpace _, FreeSpace _
  | GroupSet _, GroupSet _
  | GroupGet _, GroupGet _ => true
  | _, _ => false
  end.

(** ** More that a history shows *)

(** The request goes to the client's endpoint with its credentials. *)
Definition addressed_by (c : Client) (r : Request) : Prop :=
  req_url r = url c /\
  req_method r = "post" /\
  lookup "Accept" (req_headers r) = VString "application/json" /\
  lookup "Content-Type" (req_headers r) = VString "application/json" /\
  lookup "Authorization" (req_headers r)
  = VString (("Basic " ++ auth c)%string).

(** The exchange is a 409 whose token could be read. *)
Definition is_challenge (x : exchange) : Prop :=
  exists token : value, challenge_token x = Some token.

(** The remote method a request names. *)
Definition method_name (r : Request) : option string :=
  match req_data r with
  | Some (JObj (("method", JStr m) :: _)) => Some m
  | _ => None
  end.

(** The members of a request body for arguments that serialise to [o]. *)
Definition body_of (method : string) (o : option json) : json :=
  JObj (("method", JStr method) ::
        match o with
        | Some j => [("arguments", j)]
        | None => []
        end).

(** How the call ends when [out] is the last exchange it made. *)
Definition verdict (c : Client) (out : AxiosOutcome) : option promise :=
  match out with
  | Fulfilled resp =>
      match get resp "data" with
      | Return data => Some (Resolved data)
      | Throw e =>
          match http_catch c e with
          | Retry _ => None
          | Settle p => Some p
          end
      end
  | Failed e =>
      match http_catch c e with
      | Retry _ => None
      | Settle p => Some p
      end
  end.

(** A server that challenges every request, whatever token it carries;
    its state counts the requests. *)
Definition always_challenges (request : Request) (n : nat)
  : AxiosOutcome * nat :=
  (challenge "stale", S n).

(** A server that holds one token: it answers a request that carries the
    token and challenges any other with it; its state counts requests. *)
Definition daemon (token : string) (request : Request) (n : nat)
  : AxiosOutcome * nat :=
  if strict_eq_string (session_header request) token
  then (ok (success VNull), S n)
  else (challenge token, S n).

(** * Properties *)

(** ** Values and requests *)

Lemma strict_eq_number_true (v : value) (n : Z) :
  strict_eq_number v n = true <-> v = VNumber n.
Proof.
  split.
  - destruct v as [| |p| | | |]; try discriminate.
    destruct p; try discriminate.
    simpl. intros H. apply Z.eqb_eq in H. now subst.
  - intros ->. simpl. apply Z.eqb_refl.
Qed.

Lemma strict_eq_number_false (v : value) (n : Z) :
  v <> VNumber n -> strict_eq_number v n = false.
Proof.
  intros H. destruct (strict_eq_number v n) eqn:E; [|reflexivity].
  apply strict_eq_number_true in E. contradiction.
Qed.

Lemma strict_eq_string_false (v : value) (s : string) :
  v <> VString s -> strict_eq_string v s = false.
Proof.
  intros H. destruct v as [| |p| | | |]; try reflexivity.
  destruct p; try reflexivity.
  simpl. apply String.eqb_neq. intros ->. now apply H.
Qed.

Lemma stringify_prim_throws (p : prim) (e : value) :
  stringify_prim p = Throw e -> e = VError TypeError.
Proof. destruct p; simpl; congruence. Qed.

(** [JSON.stringify] throws nothing but a TypeError. *)
Lemma JSON_stringify_throws :
  forall (v : value) (e : value),
    JSON_stringify v = Throw e -> e = VError TypeError.
Proof.
  fix IH 1. intros v e. destruct v as [| |p|p|items|props|k]; simpl.
  - discriminate.
  - discriminate.
  - destruct (stringify_prim p) eqn:E; simpl; [discriminate|].
    intros H; inversion H; subst. eapply stringify_prim_throws; eauto.
  - destruct (stringify_prim p) eqn:E; simpl; [discriminate|].
    intros H; inversion H; subst. eapply stringify_prim_throws; eauto.
  - match goal with |- bind ?m _ = _ -> _ => assert (L : forall e', m = Throw e' -> e' = VError TypeError) end.
    { induction items as [|x rest IHr]; intros e'; [discriminate|].
      destruct (JSON_stringify x) eqn:Ex; simpl.
      - match goal with |- bind ?m _ = _ -> _ => destruct m eqn:Er end; simpl; [discriminate|].
        intros H; inversion H; subst. now apply IHr.
      - intros H; inversion H; subst. eapply IH; eauto. }
    match goal with |- bind ?m _ = _ -> _ => destruct m eqn:Em end; simpl; [discriminate|].
    intros H; inversion H; subst. now apply L.
  - match goal with |- bind ?m _ = _ -> _ => assert (L : forall e', m = Throw e' -> e' = VError TypeError) end.
    { induction props as [|[key x] rest IHr]; intros e'; [discriminate|].
      destruct (JSON_stringify x) eqn:Ex; simpl.
      - match goal with |- bind ?m _ = _ -> _ => destruct m eqn:Er end; simpl; [discriminate|].
        intros H; inversion H; subst. now apply IHr.
      - intros H; inversion H; subst. eapply IH; eauto. }
    match goal with |- bind ?m _ = _ -> _ => destruct m eqn:Em end; simpl; [discriminate|].
    intros H; inversion H; subst. now apply L.
  - discriminate.
Qed.

Lemma build_request_throws (c : Client) (method : string) (keys e : value) :
  build_request c method keys = Throw e -> e = VError TypeError.
Proof.
  unfold build_request.
  destruct (JSON_stringify _) eqn:E; simpl; [discriminate|].
  intros H; inversion H; subst. eapply JSON_stringify_throws; eauto.
Qed.

(** A request carries the token the client holds when it is built. *)
Lemma build_request_session_header (c : Client) (method : string)
  (keys : value) (request : Request) :
  build_request c method keys = Return request ->
  session_header request = sessionId c.
Proof.
  unfold build_request.
  destruct (JSON_stringify _); simpl; [|discriminate].
  intros H; inversion H; subst. reflexivity.
Qed.

(** The body of a request depends on the method and the arguments only. *)
Lemma build_request_data (c c' : Client) (method : string) (keys : value)
  (request request' : Request) :
  build_request c method keys = Return request ->
  build_request c' method keys = Return request' ->
  req_data request' = req_data request.
Proof.
  unfold build_request.
  destruct (JSON_stringify _); simpl; [|discriminate].
  intros H H'; inversion H; inversion H'; subst. reflexivity.
Qed.

(** ** The transport *)

Section TransportProperties.

Variable Server : Type.
Variable axios_request : Request -> Server -> AxiosOutcome * Server.





(** One pass that meets a 401 throws out of the executor: one exchange,
    and a promise that is never settled. *)
Lemma http_unauthorized (budget : nat) (c : Client) (method : string)
  (keys : value) (s s' : Server) (request : Request) (e : value) :
  build_request c method keys = Return request ->
  axios_request request s = (Failed e, s') ->
  status_of e = VNumber 401 ->
  http axios_request (S budget) c method keys s =
  finish (Pending (VString "Unauthorized to access RPC Server")) c s'
    [(request, Failed e)].
Proof.
  intros Hb Ha Hs. simpl. unfold http_try. rewrite Hb, Ha.
  unfold http_catch. rewrite Hs. reflexivity.
Qed.






(** C4.  Transport, other failures.  When the request fails with a status
    other than 409 and 401, or with an error that carries no HTTP status,
    the call rejects with that very error value after this one exchange:
    the promise is rejected with [e] itself, the failed exchange is the
    only one whatever passes remain, and the client, its token included,
    is left as it was. *)
Theorem http_other_failure_rejects_unmodified
  (budget : nat) (c : Client) (method : string) (keys : value)
  (s s' : Server) (request : Request) (e : value)
  (Hrequest : build_request c method keys = Return request)
  (Hfailed : axios_request request s = (Failed e, s'))
  (Hnot409 : status_of e <> VNumber 409)
  (Hnot401 : status_of e <> VNumber 401) :
  http axios_request (S budget) c method keys s =
  finish (Rejected e) c s' [(request, Failed e)]
  /\
  result (http axios_request (S budget) c method keys s)
  = Some (Rejected e)
  /\
  exchanges (http axios_request (S budget) c method keys s)
  = [(request, Failed e)]
  /\
  client (http axios_request (S budget) c method keys s) = c
  /\
  server (http axios_request (S budget) c method keys s) = s'.
Proof.
  assert (E : http axios_request (S budget) c method keys s =
              finish (Rejected e) c s' [(request, Failed e)]).
  { simpl. unfold http_try. rewrite Hrequest, Hfailed.
    unfold http_catch.
    rewrite (strict_eq_number_false _ _ Hnot409).
    rewrite (strict_eq_number_false _ _ Hnot401).
    reflexivity. }
  rewrite E. repeat split.
Qed.

(** *** The token along one call *)

Lemma get_throws (v : value) (key : string) (e : value) :
  get v key = Throw e -> e = VError TypeError.
Proof. destruct v; simpl; congruence. Qed.

Lemma token_after_cons (held : value) (x : exchange) (xs : list exchange) :
  token_after held (x :: xs) = token_after (token_after held [x]) xs.
Proof.
  unfold token_after; simpl.
  destruct (last_challenge xs); [reflexivity|].
  now destruct (challenge_token x).
Qed.

Lemma token_after_app (held : value) (xs ys : list exchange) :
  token_after held (xs ++ ys) = token_after (token_after held xs) ys.
Proof.
  revert held. induction xs as [|x xs IH]; intros held; [reflexivity|].
  simpl app. rewrite token_after_cons, IH.
  now rewrite <- (token_after_cons held x xs).
Qed.

Lemma uses_held_token_first (held : value) (xs : list exchange)
  (request : Request) :
  uses_held_token held xs ->
  first_request xs = Some request ->
  session_header request = held.
Proof.
  destruct xs as [|x xs]; simpl; [discriminate|].
  intros [H _] E. now inversion E; subst.
Qed.

(** An exchange that is not a readable 409 leaves the token alone. *)
Lemma tracks_single (p : promise) (c : Client) (s : Server)
  (request : Request) (out : AxiosOutcome) :
  session_header request = sessionId c ->
  challenge_token (request, out) = None ->
  tracks c (finish p c s [(request, out)]).
Proof.
  intros Hh Hc. unfold tracks, token_after; simpl. rewrite Hc. auto.
Qed.

Lemma http_tracks (budget : nat) :
  forall (c : Client) (method : string) (keys : value) (s : Server),
    tracks c (http axios_request budget c method keys s).
Proof.
  induction budget as [|budget IH]; intros c method keys s.
  - split; reflexivity.
  - simpl. unfold http_try.
    destruct (build_request c method keys) as [request|e] eqn:Hb.
    + pose proof (build_request_session_header _ _ _ _ Hb) as Hh.
      destruct (axios_request request s) as [out s'].
      destruct out as [resp|e].
      * destruct (get resp "data") as [data|e] eqn:Hd.
        -- now apply tracks_single.
        -- apply get_throws in Hd. subst e. now apply tracks_single.
      * unfold http_catch.
        destruct (strict_eq_number (status_of e) 409) eqn:H409.
        -- destruct (challenge_header e) as [token|err] eqn:Hc.
           ++ specialize (IH (set_sessionId c token) method keys s').
              destruct IH as [IHu IHc]. simpl in IHu, IHc.
              assert (Ht : forall xs : list exchange,
                         xs = [(request, Failed e)] ->
                         token_after (sessionId c) xs = token).
              { intros xs ->. unfold token_after, challenge_token; simpl.
                unfold challenge_token; simpl. now rewrite H409, Hc. }
              split.
              ** simpl. split; [exact Hh|].
                 match goal with
                 | |- uses_held_token ?t _ =>
                     replace t with token by (symmetry; now apply Ht)
                 end.
                 exact IHu.
              ** simpl. rewrite token_after_cons.
                 match goal with
                 | |- _ = token_after ?t _ =>
                     replace t with token by (symmetry; now apply Ht)
                 end.
                 exact IHc.
           ++ apply tracks_single; [exact Hh|].
              unfold challenge_token; simpl. now rewrite H409, Hc.
        -- assert (Hn : challenge_token (request, Failed e) = None).
           { unfold challenge_token; simpl. now rewrite H409. }
           destruct (strict_eq_number (status_of e) 401);
             now apply tracks_single.
    + apply build_request_throws in Hb. subst e. split; reflexivity.
Qed.

(** Every request of a call is built from the method and arguments the
    call was given. *)
Lemma http_requests_built (budget : nat) :
  forall (c : Client) (method : string) (keys : value) (s : Server),
    Forall (fun x => exists c', build_request c' method keys = Return (fst x))
      (exchanges (http axios_request budget c method keys s)).
Proof.
  induction budget as [|budget IH]; intros c method keys s.
  - constructor.
  - simpl. unfold http_try.
    destruct (build_request c method keys) as [request|e] eqn:Hb.
    + destruct (axios_request request s) as [out s'].
      assert (Hx : exists c', build_request c' method keys
                              = Return (fst (request, out)))
        by (now exists c).
      destruct (match out with
                | Fulfilled resp => get resp "data"
                | Failed e => Throw e
                end) as [data|e].
      * simpl. now repeat constructor.
      * destruct (http_catch c e) as [c'|p].
        -- simpl. constructor; [exact Hx|apply IH].
        -- simpl. now repeat constructor.
    + apply build_request_throws in Hb. subst e. constructor.
Qed.

(** The first pass sends a request as soon as one can be built. *)
Lemma http_first_pass (budget : nat) (c : Client) (method : string)
  (keys : value) (s : Server) (request : Request) :
  build_request c method keys = Return request ->
  exists out rest,
    exchanges (http axios_request (S budget) c method keys s)
    = (request, out) :: rest.
Proof.
  intros Hb. simpl. unfold http_try. rewrite Hb.
  destruct (axios_request request s) as [out s'].
  exists out.
  destruct (match out with
            | Fulfilled resp => get resp "data"
            | Failed e => Throw e
            end) as [data|e].
  - now exists [].
  - destruct (http_catch c e) as [c'|p]; simpl; eauto.
Qed.

(** *** The facade adds no exchange and, disconnect apart, keeps the client *)

Lemma await_http_exchanges (reject_bound : bool)
  (interpret : value -> throws value) (r : run Server) :
  exchanges (await_http reject_bound interpret r) = exchanges r.
Proof. unfold await_http. now destruct (result r) as [[v|e|u]|]. Qed.

Lemma await_http_client (reject_bound : bool)
  (interpret : value -> throws value) (r : run Server) :
  client (await_http reject_bound interpret r) = client r.
Proof. unfold await_http. now destruct (result r) as [[v|e|u]|]. Qed.

Lemma await_http_tracks (reject_bound : bool)
  (interpret : value -> throws value) (c : Client) (r : run Server) :
  tracks c r -> tracks c (await_http reject_bound interpret r).
Proof.
  unfold tracks. now rewrite await_http_exchanges, await_http_client.
Qed.

Lemma ids_operation_tracks (method : string) (budget : nat) (c : Client)
  (ids : value) (s : Server) :
  tracks c (ids_operation axios_request method budget c ids s).
Proof.
  unfold ids_operation.
  destruct (Object_assign _) as [payload|e].
  - apply await_http_tracks, http_tracks.
  - split; reflexivity.
Qed.

Lemma disconnect_exchanges (budget : nat) (c : Client) (s : Server) :
  exchanges (disconnect axios_request budget c s) =
  exchanges (http axios_request budget c "session-close" VUndefined s).
Proof.
  unfold disconnect.
  now destruct (result (http axios_request budget c _ _ s)) as [[v|e|u]|].
Qed.

(** A disconnect that resolves leaves the token null. *)
Lemma disconnect_resolved (budget : nat) (c : Client) (s : Server) :
  resolved (disconnect axios_request budget c s) = true ->
  sessionId (client (disconnect axios_request budget c s)) = VNull.
Proof.
  unfold resolved, disconnect.
  destruct (result (http axios_request budget c _ _ s)) as [[v|e|u]|] eqn:E;
    simpl; try rewrite E; try discriminate; reflexivity.
Qed.

(** A disconnect that does not resolve leaves the client as [http] did. *)
Lemma disconnect_unresolved (budget : nat) (c : Client) (s : Server) :
  resolved (disconnect axios_request budget c s) = false ->
  client (disconnect axios_request budget c s) =
  client (http axios_request budget c "session-close" VUndefined s).
Proof.
  unfold resolved, disconnect.
  destruct (result (http axios_request budget c _ _ s)) as [[v|e|u]|] eqn:E;
    simpl; try rewrite E; try discriminate; reflexivity.
Qed.

(** Whatever the call, its requests carry the token held when they are
    sent, and the client ends with the token [held_after] names. *)
Lemma invoke_tracks (budget : nat) (k : call) (c : Client) (s : Server) :
  uses_held_token (sessionId c) (exchanges (invoke axios_request budget k c s))
  /\ sessionId (client (invoke axios_request budget k c s)) =
     held_after (sessionId c) (k, invoke axios_request budget k c s).
Proof.
  assert (D : k = Disconnect \/ k <> Disconnect)
    by (destruct k; (now left) || (right; discriminate)).
  destruct D as [->|Hk].
  - simpl invoke. unfold held_after, successful_disconnect. simpl fst.
    simpl snd. rewrite disconnect_exchanges.
    pose proof (http_tracks budget c "session-close" VUndefined s) as [Hu Hc].
    split; [exact Hu|].
    destruct (resolved (disconnect axios_request budget c s)) eqn:R.
    + now apply disconnect_resolved.
    + rewrite disconnect_unresolved by exact R. exact Hc.
  - assert (T : tracks c (invoke axios_request budget k c s)).
    { destruct k; try congruence; simpl invoke;
        solve [ apply http_tracks
              | apply ids_operation_tracks
              | apply await_http_tracks, http_tracks ]. }
    destruct T as [Hu Hc]. split; [exact Hu|].
    unfold held_after, successful_disconnect. simpl fst.
    destruct k; try congruence; exact Hc.
Qed.

Lemma invoke_first_request (budget : nat) (k : call) (c : Client)
  (s : Server) (request : Request) :
  first_request (exchanges (invoke axios_request budget k c s))
  = Some request ->
  session_header request = sessionId c.
Proof.
  intros H. eapply uses_held_token_first; [|exact H].
  apply invoke_tracks.
Qed.

(** *** The token along a history *)

Lemma session_uses_held_token (budget : nat) (ks : list call) :
  forall (c : Client) (s : Server) (before later : list (call * run Server))
    (kr : call * run Server),
    session axios_request budget ks c s = before ++ kr :: later ->
    uses_held_token (held_token (sessionId c) before) (exchanges (snd kr)).
Proof.
  induction ks as [|k ks IH]; intros c s before later kr H.
  - destruct before; discriminate.
  - simpl in H. destruct before as [|kr0 before].
    + simpl in H. inversion H; subst. simpl. apply invoke_tracks.
    + simpl in H. inversion H as [[H0 H1]]. subst kr0.
      destruct (result (invoke axios_request budget k c s)).
      * apply IH in H1. unfold held_token in *. simpl fold_left.
        destruct (invoke_tracks budget k c s) as [_ Hc].
        now rewrite <- Hc.
      * destruct before; discriminate.
Qed.

(** With no successful disconnect in it, a history leaves the token of
    its last 409, or the initial one when there was none. *)
Lemma held_token_without_disconnect (h : list (call * run Server)) :
  forall initial : value,
    forallb (fun kr => negb (successful_disconnect kr)) h = true ->
    held_token initial h = token_after initial (all_exchanges h).
Proof.
  induction h as [|kr h IH]; intros initial H; [reflexivity|].
  simpl in H. apply andb_true_iff in H. destruct H as [Hkr Hh].
  unfold held_token in *. simpl fold_left. rewrite (IH _ Hh).
  unfold held_after. apply negb_true_iff in Hkr. rewrite Hkr.
  unfold all_exchanges. simpl flat_map. now rewrite token_after_app.
Qed.

(** C3 (amended).  Token carried from call to call.  In a history of calls
    made one after the other on one instance, every request of a call is
    sent with the token the instance holds at that moment: the one held
    when the call starts, which is null after construction or after a
    disconnect that resolved and otherwise the token of the last 409
    received since, by whichever operation; and within the call, the token
    of its own latest 409.  In particular the first request of a call
    carries the last token received from any earlier 409 as long as no
    disconnect has resolved before it. *)
Theorem session_requests_carry_held_token
  (budget : nat) (ks : list call) (c : Client) (s : Server)
  (before later : list (call * run Server)) (kr : call * run Server)
  (H : session axios_request budget ks c s = before ++ kr :: later) :
  uses_held_token (held_token (sessionId c) before) (exchanges (snd kr))
  /\
  (forall request : Request,
      first_request (exchanges (snd kr)) = Some request ->
      session_header request = held_token (sessionId c) before)
  /\
  (forallb (fun kr' => negb (successful_disconnect kr')) before = true ->
   forall (request : Request) (token : value),
     first_request (exchanges (snd kr)) = Some request ->
     last_challenge (all_exchanges before) = Some token ->
     session_header request = token).
Proof.
  pose proof (session_uses_held_token _ _ _ _ _ _ _ H) as U.
  split; [exact U|]. split.
  - intros request Hf. eapply uses_held_token_first; eauto.
  - intros Hd request token Hf Hl.
    rewrite (uses_held_token_first _ _ _ U Hf).
    rewrite (held_token_without_disconnect _ _ Hd).
    unfold token_after. now rewrite Hl.
Qed.

(** C6.  Disconnect.  When [disconnect()] resolves, the client holds a
    null token, and whatever call comes next sends its first request with
    a null session header. *)
Theorem disconnect_clears_session_token
  (budget : nat) (c : Client) (s : Server) (v : value)
  (H : result (disconnect axios_request budget c s) = Some (Resolved v)) :
  sessionId (client (disconnect axios_request budget c s)) = VNull
  /\
  forall (budget' : nat) (k : call) (request : Request),
    first_request
      (exchanges
         (invoke axios_request budget' k
            (client (disconnect axios_request budget c s))
            (server (disconnect axios_request budget c s))))
    = Some request ->
    session_header request = VNull.
Proof.
  assert (N : sessionId (client (disconnect axios_request budget c s))
              = VNull).
  { apply disconnect_resolved. unfold resolved. now rewrite H. }
  split; [exact N|].
  intros budget' k request Hf.
  apply invoke_first_request in Hf. now rewrite Hf.
Qed.

(** C7.  [getTorrents()] with no argument.  As soon as the loop makes one
    pass a request is sent, and every request the call sends is a
    torrent-get whose arguments are exactly fields = [id, name, status,
    downloadedEver, uploadedEver] and ids = 0. *)
Theorem getTorrents_default_arguments
  (budget : nat) (c : Client) (s : Server) :
  (exists x rest,
      exchanges (getTorrents axios_request (S budget) c VUndefined VUndefined s)
      = x :: rest)
  /\
  Forall (fun x : exchange =>
            req_data (fst x) =
            Some (JObj [("method", JStr "torrent-get");
                        ("arguments",
                         JObj [("fields",
                                JArr [JStr "id"; JStr "name"; JStr "status";
                                      JStr "downloadedEver";
                                      JStr "uploadedEver"]);
                               ("ids", JNum 0)])]))
    (exchanges (getTorrents axios_request budget c VUndefined VUndefined s)).
Proof.
  unfold getTorrents. simpl default_param.
  rewrite !await_http_exchanges. split.
  - match goal with
    | |- context [http axios_request (S budget) c ?m ?k s] =>
        destruct (http_first_pass budget c m k s _ eq_refl)
          as (out & rest & E)
    end.
    rewrite E. eauto.
  - eapply Forall_impl; [|apply http_requests_built].
    intros x [c' Hb]. simpl in Hb. inversion Hb. reflexivity.
Qed.

(** C9.  [portTest()] is the very call [blocklistUpdate()] is: every
    request it sends names the remote method blocklist-update and carries
    no arguments, and it sends one as soon as the loop makes a pass. *)
Theorem portTest_sends_blocklist_update
  (budget : nat) (c : Client) (s : Server) :
  portTest axios_request budget c s = blocklistUpdate axios_request budget c s
  /\
  (exists x rest,
      exchanges (portTest axios_request (S budget) c s) = x :: rest)
  /\
  Forall (fun x : exchange =>
            req_data (fst x) =
            Some (JObj [("method", JStr "blocklist-update")]))
    (exchanges (portTest axios_request budget c s)).
Proof.
  split; [reflexivity|].
  unfold portTest, keys_operation. rewrite !await_http_exchanges. split.
  - match goal with
    | |- context [http axios_request (S budget) c ?m ?k s] =>
        destruct (http_first_pass budget c m k s _ eq_refl)
          as (out & rest & E)
    end.
    rewrite E. eauto.
  - eapply Forall_impl; [|apply http_requests_built].
    intros x [c' Hb]. simpl in Hb. inversion Hb. reflexivity.
Qed.

(** *** Responses and how the facade reads them *)

Lemma last_of_singleton (A : Type) (xs : list A) (a b : A) :
  xs ++ [a] = [b] -> a = b.
Proof.
  destruct xs as [|x xs]; simpl; intros H.
  - now inversion H.
  - destruct xs; discriminate.
Qed.

Lemma last_of_cons (A : Type) (xs ys : list A) (a b : A) :
  xs ++ [a] = b :: ys ->
  (ys = [] /\ a = b) \/ (exists xs', ys = xs' ++ [a]).
Proof.
  destruct xs as [|x xs]; simpl; intros H; inversion H; subst.
  - now left.
  - right. now exists xs.
Qed.

(** A call whose last exchange is an HTTP success resolves with the body
    of that response. *)
Lemma http_answered (budget : nat) :
  forall (c : Client) (method : string) (keys : value) (s : Server)
    (body : value),
    answered (http axios_request budget c method keys s) body ->
    result (http axios_request budget c method keys s)
    = Some (Resolved body).
Proof.
  induction budget as [|budget IH];
    intros c method keys s body (xs & request' & resp' & E & Hd).
  - destruct xs; discriminate.
  - revert E. simpl. unfold http_try.
    destruct (build_request c method keys) as [request|e] eqn:Hb.
    + destruct (axios_request request s) as [out s'].
      destruct out as [resp|e].
      * destruct (get resp "data") as [data|e] eqn:Hg.
        -- simpl. intros E. symmetry in E. apply last_of_singleton in E.
           inversion E; subst. congruence.
        -- apply get_throws in Hg as He. subst e. simpl. intros E.
           symmetry in E. apply last_of_singleton in E. inversion E; subst. congruence.
      * destruct (http_catch c e) as [c'|p].
        -- simpl. intros E. symmetry in E.
           apply last_of_cons in E. destruct E as [[_ E]|[xs' E]].
           ++ discriminate.
           ++ apply IH. now exists xs', request', resp'.
        -- simpl. intros E. symmetry in E. apply last_of_singleton in E. discriminate.
    + apply build_request_throws in Hb. subst e. simpl.
      destruct xs; discriminate.
Qed.

Lemma await_http_answered (reject_bound : bool)
  (interpret : value -> throws value) (budget : nat) (c : Client)
  (method : string) (keys : value) (s : Server) (body : value) :
  answered
    (await_http reject_bound interpret
       (http axios_request budget c method keys s)) body ->
  result
    (await_http reject_bound interpret
       (http axios_request budget c method keys s))
  = Some (try_resolve reject_bound (interpret body)).
Proof.
  intros (xs & request & resp & E & Hd).
  rewrite await_http_exchanges in E.
  assert (A : answered (http axios_request budget c method keys s) body)
    by (now exists xs, request, resp).
  apply http_answered in A. unfold await_http. now rewrite A.
Qed.

Lemma arguments_or_null_failure (body res : value) :
  get body "result" = Return res ->
  res <> VString "success" ->
  arguments_or_null body = Return VNull.
Proof.
  intros Hr Hn. unfold arguments_or_null. rewrite Hr. simpl.
  now rewrite (strict_eq_string_false _ _ Hn).
Qed.

Lemma arguments_or_result_failure (body res : value) :
  get body "result" = Return res ->
  res <> VString "success" ->
  arguments_or_result body = Return res.
Proof.
  intros Hr Hn. unfold arguments_or_result. rewrite Hr. simpl.
  now rewrite (strict_eq_string_false _ _ Hn).
Qed.

Lemma ids_operation_failure (method : string) (budget : nat) (c : Client)
  (ids : value) (s : Server) (body res : value) :
  get body "result" = Return res ->
  res <> VString "success" ->
  answered (ids_operation axios_request method budget c ids s) body ->
  result (ids_operation axios_request method budget c ids s)
  = Some (Resolved VNull).
Proof.
  intros Hr Hn. unfold ids_operation.
  destruct (Object_assign _) as [payload|e].
  - intros A. rewrite (await_http_answered _ _ _ _ _ _ _ _ A).
    now rewrite (arguments_or_null_failure _ _ Hr Hn).
  - intros (xs & request & resp & E & _). destruct xs; discriminate.
Qed.

Lemma keys_operation_failure (method : string) (budget : nat) (c : Client)
  (keys : value) (s : Server) (body res : value) :
  get body "result" = Return res ->
  res <> VString "success" ->
  answered (keys_operation axios_request method budget c keys s) body ->
  result (keys_operation axios_request method budget c keys s)
  = Some (Resolved res).
Proof.
  intros Hr Hn A. unfold keys_operation in *.
  rewrite (await_http_answered _ _ _ _ _ _ _ _ A).
  now rewrite (arguments_or_result_failure _ _ Hr Hn).
Qed.

(** C8.  Result other than success.  When the server's response body has a
    result field that is not the string success, startTorrents,
    startNowTorrents, stopTorrents, verifyTorrents and reannounceTorrents
    resolve with null, while removeTorrent (and every operation built the
    same way: add, move, rename, session-set, group-set, group-get)
    resolves with the value of the result field itself; none rejects. *)
Theorem non_success_resolves_null_or_raw_result
  (budget : nat) (c : Client) (s : Server) (ids keys body res : value)
  (Hresult : get body "result" = Return res)
  (Hfailure : res <> VString "success") :
  (answered (startTorrents axios_request budget c ids s) body ->
   result (startTorrents axios_request budget c ids s)
   = Some (Resolved VNull))
  /\
  (answered (startNowTorrents axios_request budget c ids s) body ->
   result (startNowTorrents axios_request budget c ids s)
   = Some (Resolved VNull))
  /\
  (answered (stopTorrents axios_request budget c ids s) body ->
   result (stopTorrents axios_request budget c ids s)
   = Some (Resolved VNull))
  /\
  (answered (verifyTorrents axios_request budget c ids s) body ->
   result (verifyTorrents axios_request budget c ids s)
   = Some (Resolved VNull))
  /\
  (answered (reannounceTorrents axios_request budget c ids s) body ->
   result (reannounceTorrents axios_request budget c ids s)
   = Some (Resolved VNull))
  /\
  (answered (removeTorrent axios_request budget c keys s) body ->
   result (removeTorrent axios_request budget c keys s)
   = Some (Resolved res))
  /\
  (forall method : string,
      answered (keys_operation axios_request method budget c keys s) body ->
      result (keys_operation axios_request method budget c keys s)
      = Some (Resolved res)).
Proof.
  repeat split;
    solve [ now apply ids_operation_failure with (res := res)
          | now apply keys_operation_failure
          | intros method; now apply keys_operation_failure ].
Qed.

(** What the facade does with a rejection of [http]: an executor that
    names [reject] hands the error on unchanged, one that does not ends in
    a ReferenceError and settles nothing. *)
Lemma await_http_rejected (reject_bound : bool)
  (interpret : value -> throws value) (r : run Server) (e : value) :
  result r = Some (Rejected e) ->
  result (await_http reject_bound interpret r) =
  Some (if reject_bound then Rejected e else Pending (VError ReferenceError)).
Proof. intros H. unfold await_http. rewrite H. reflexivity. Qed.

(** *** Falsy ids *)

Lemma ids_operation_falsy (method : string) (budget : nat) (c : Client)
  (ids : value) (s : Server) :
  truthy ids = false ->
  rejects_or_sends_no_mapping method
    (ids_operation axios_request method (S budget) c ids s).
Proof.
  intros Hf. unfold ids_operation, js_and. rewrite Hf.
  destruct ids as [| |p|p|items|props|k]; try discriminate.
  - left. split; reflexivity.
  - left. split; reflexivity.
  - simpl Object_assign. cbv iota.
    destruct (stringify_prim p) as [j|e] eqn:Hp.
    + right. rewrite await_http_exchanges.
      assert (Hb : forall c',
                 build_request c' method (VBoxed p) =
                 Return {| req_url := url c';
                           req_method := "post";
                           req_headers :=
                             [("Accept", VString "application/json");
                              ("Content-Type", VString "application/json");
                              ("x-transmission-session-id", sessionId c');
                              ("Authorization",
                               VString (("Basic " ++ auth c')%string))];
                           req_data :=
                             Some (JObj [("method", JStr method);
                                         ("arguments", j)]) |}).
      { intros c'. unfold build_request. simpl. now rewrite Hp. }
      split.
      * destruct (http_first_pass budget c method (VBoxed p) s _ (Hb c))
          as (out & rest & E).
        rewrite E. eauto.
      * eapply Forall_impl; [|apply http_requests_built].
        intros x [c' Hx]. rewrite Hb in Hx. inversion Hx. simpl.
        exists j. split; [reflexivity|].
        destruct p; simpl in Hp; inversion Hp; reflexivity.
    + left.
      assert (Hb : build_request c method (VBoxed p) = Throw e).
      { unfold build_request. simpl. now rewrite Hp. }
      apply stringify_prim_throws in Hp. subst e.
      unfold await_http. simpl. unfold http_try. rewrite Hb.
      split; reflexivity.
Qed.

(** C10.  Falsy ids.  Called with a falsy ids (undefined, null, 0, NaN,
    the empty string, false, 0n), each of startTorrents, startNowTorrents,
    stopTorrents, verifyTorrents and reannounceTorrents either rejects
    with a TypeError with nothing sent (for undefined and null the
    TypeError of [Object.assign]), or sends requests whose arguments are
    the wrapped primitive, not a mapping: no request goes out with an
    empty or absent arguments mapping. *)
Theorem falsy_ids_never_sent_as_omitted
  (budget : nat) (c : Client) (s : Server) (ids : value)
  (Hfalsy : truthy ids = false) :
  (nullish ids = true ->
   Object_assign (js_and ids (VObject [("ids", ids)]))
   = Throw (VError TypeError))
  /\
  rejects_or_sends_no_mapping "torrent-start"
    (startTorrents axios_request (S budget) c ids s)
  /\
  rejects_or_sends_no_mapping "torrent-start-now"
    (startNowTorrents axios_request (S budget) c ids s)
  /\
  rejects_or_sends_no_mapping "torrent-stop"
    (stopTorrents axios_request (S budget) c ids s)
  /\
  rejects_or_sends_no_mapping "torrent-verify"
    (verifyTorrents axios_request (S budget) c ids s)
  /\
  rejects_or_sends_no_mapping "torrent-reannounce"
    (reannounceTorrents axios_request (S budget) c ids s).
Proof.
  split.
  - destruct ids; simpl; try discriminate; reflexivity.
  - repeat split; now apply ids_operation_falsy.
Qed.

End TransportProperties.

(** ** Scenarios on the scripted server *)

(** The scenario of the specification: a 409 with token abc123, then a
    success, and [getTorrents()] resolves with the torrents. *)
Example getTorrents_after_challenge :
  let r := getTorrents scripted 2 fresh_client VUndefined VUndefined
             challenge_then_torrents in
  result r = Some (Resolved (VObject [("torrents", VArray [])])) /\
  map (fun x => session_header (fst x)) (exchanges r)
  = [VNull; VString "abc123"] /\
  sessionId (client r) = VString "abc123".
Proof. repeat split. Qed.

(** C2.  A 401, as the code handles it.  [startTorrents([1, 2])] against a
    server that answers 401: one request is sent and none after it (the
    rest of the script is untouched), but the promise is neither rejected
    nor resolved: the string thrown in the [catch] of [http] leaves the
    async executor and reaches no caller.  The same holds for [http]
    itself. *)
Theorem unauthorized_is_thrown_past_the_caller :
  let ids := VArray [VNumber 1; VNumber 2] in
  let r := startTorrents scripted 3 fresh_client ids
             [unauthorized; ok torrents_body] in
  result r = Some (Pending (VString "Unauthorized to access RPC Server")) /\
  result r <> Some (Rejected (VString "Unauthorized to access RPC Server")) /\
  map snd (exchanges r) = [unauthorized] /\
  server r = [ok torrents_body] /\
  result (http scripted 3 fresh_client "torrent-start"
            (VObject [("ids", ids)]) [unauthorized; ok torrents_body])
  = Some (Pending (VString "Unauthorized to access RPC Server")).
Proof.
  cbv zeta. repeat split. discriminate.
Qed.

(** C5.  A transport error, as the facade hands it on.  With the network
    down [removeTorrent] rejects with the transport's error unchanged,
    but [disconnect] and the four queue operations, whose executors do
    not name [reject], end in a ReferenceError thrown out of their
    [catch]: their promise is never settled and the transport's error is
    lost. *)
Theorem queue_and_disconnect_lose_transport_errors :
  let ids := VObject [("ids", VArray [VNumber 1])] in
  result (removeTorrent scripted 3 fresh_client ids [])
  = Some (Rejected network_error) /\
  result (disconnect scripted 3 fresh_client [])
  = Some (Pending (VError ReferenceError)) /\
  result (queueMoveTop scripted 3 fresh_client ids [])
  = Some (Pending (VError ReferenceError)) /\
  result (queueMoveUp scripted 3 fresh_client ids [])
  = Some (Pending (VError ReferenceError)) /\
  result (queueMoveDown scripted 3 fresh_client ids [])
  = Some (Pending (VError ReferenceError)) /\
  result (queueMoveBottom scripted 3 fresh_client ids [])
  = Some (Pending (VError ReferenceError)).
Proof. cbv zeta. repeat split. Qed.

(** C3, as stated, fails: [getTorrents()] is challenged with abc123 and
    succeeds, [disconnect()] succeeds, and the first request of the
    following [sessionStats()] carries null, not abc123. *)
Lemma token_not_carried_across_disconnect :
  ~ sends_last_challenge
      (session scripted 3 get_disconnect_stats fresh_client three_answers).
Proof.
  intros H. vm_compute in H.
  specialize (H [_; _] _ [] _ _ eq_refl eq_refl eq_refl).
  discriminate H.
Qed.

(** ** The theorems at work on the scripted server *)


Lemma http_other_failure_rejects_unmodified_witness :
  exists (request : Request) (e : value),
    status_error 500 [] = Failed e /\
    status_of e <> VNumber 409 /\
    status_of e <> VNumber 401 /\
    http scripted 3 fresh_client "session-stats" VUndefined
      [status_error 500 []; ok torrents_body]
    = finish (Rejected e) fresh_client [ok torrents_body]
        [(request, Failed e)] /\
    result (http scripted 3 fresh_client "session-stats" VUndefined
              [status_error 500 []; ok torrents_body])
    = Some (Rejected e) /\
    map snd (exchanges (http scripted 3 fresh_client "session-stats"
                          VUndefined [status_error 500 []; ok torrents_body]))
    = [status_error 500 []] /\
    server (http scripted 3 fresh_client "session-stats" VUndefined
              [status_error 500 []; ok torrents_body])
    = [ok torrents_body].
Proof.
  eexists. eexists.
  split; [reflexivity|].
  assert (N9 : status_of
                 (VObject [("response",
                            VObject [("status", VNumber 500);
                                     ("headers", VObject [])])])
               <> VNumber 409) by (simpl; discriminate).
  assert (N1 : status_of
                 (VObject [("response",
                            VObject [("status", VNumber 500);
                                     ("headers", VObject [])])])
               <> VNumber 401) by (simpl; discriminate).
  split; [exact N9|]. split; [exact N1|].
  destruct (http_other_failure_rejects_unmodified _ scripted 2 fresh_client
              "session-stats" VUndefined
              [status_error 500 []; ok torrents_body] [ok torrents_body]
              _ _ eq_refl eq_refl N9 N1)
    as (Heq & Hresult & Hexchanges & _ & Hserver).
  split; [exact Heq|]. split; [exact Hresult|].
  split; [now rewrite Hexchanges|exact Hserver].
Defined.

Lemma session_requests_carry_held_token_witness :
  exists (before : list (call * run (list AxiosOutcome)))
         (kr : call * run (list AxiosOutcome)),
    session scripted 3 [GetTorrents VUndefined VUndefined; SessionStats]
      fresh_client [challenge "abc123"; ok torrents_body; ok (success VNull)]
    = before ++ [kr] /\
    held_token (sessionId fresh_client) before = VString "abc123" /\
    uses_held_token (VString "abc123") (exchanges (snd kr)).
Proof.
  exists [(GetTorrents VUndefined VUndefined,
           getTorrents scripted 3 fresh_client VUndefined VUndefined
             [challenge "abc123"; ok torrents_body; ok (success VNull)])].
  eexists.
  split; [reflexivity|]. split; [reflexivity|].
  apply (session_requests_carry_held_token _ scripted 3
           [GetTorrents VUndefined VUndefined; SessionStats]
           fresh_client
           [challenge "abc123"; ok torrents_body; ok (success VNull)]
           [(GetTorrents VUndefined VUndefined,
             getTorrents scripted 3 fresh_client VUndefined VUndefined
               [challenge "abc123"; ok torrents_body; ok (success VNull)])]
           [] _ eq_refl).
Defined.

Lemma disconnect_clears_session_token_witness :
  sessionId
    (client (disconnect scripted 3
               (set_sessionId fresh_client (VString "abc123"))
               [ok (success VNull); ok torrents_body]))
  = VNull.
Proof.
  apply (disconnect_clears_session_token _ scripted 3
           (set_sessionId fresh_client (VString "abc123"))
           [ok (success VNull); ok torrents_body] VUndefined eq_refl).
Defined.

(** The scenario of the specification: torrent-remove answered with the
    result no such torrent resolves with that string. *)
Lemma non_success_resolves_null_or_raw_result_witness :
  let ids := VArray [VNumber 7] in
  let keys := VObject [("ids", ids)] in
  get no_such_torrent "result" = Return (VString "no such torrent") /\
  VString "no such torrent" <> VString "success" /\
  result (removeTorrent scripted 3 fresh_client keys [ok no_such_torrent])
  = Some (Resolved (VString "no such torrent")) /\
  result (startTorrents scripted 3 fresh_client ids [ok no_such_torrent])
  = Some (Resolved VNull).
Proof.
  cbv zeta.
  assert (Hn : VString "no such torrent" <> VString "success")
    by discriminate.
  split; [reflexivity|]. split; [exact Hn|].
  destruct (non_success_resolves_null_or_raw_result _ scripted 3 fresh_client
              [ok no_such_torrent] (VArray [VNumber 7])
              (VObject [("ids", VArray [VNumber 7])])
              no_such_torrent (VString "no such torrent") eq_refl Hn)
    as (Hstart & _ & _ & _ & _ & Hremove & _).
  split.
  - apply Hremove. exists []. eexists. eexists. split; reflexivity.
  - apply Hstart. exists []. eexists. eexists. split; reflexivity.
Defined.

Lemma falsy_ids_never_sent_as_omitted_witness :
  truthy (VNumber 0) = false /\
  rejects_or_sends_no_mapping "torrent-start"
    (startTorrents scripted 1 fresh_client (VNumber 0) [ok (success VNull)]).
Proof.
  split; [reflexivity|].
  apply (falsy_ids_never_sent_as_omitted _ scripted 0 fresh_client
           [ok (success VNull)] (VNumber 0) eq_refl).
Defined.

(** * Further properties of the transport and the facade *)

(** ** Requests *)

Lemma build_request_returns (c : Client) (method : string) (keys : value)
  (o : option json) :
  JSON_stringify keys = Return o ->
  build_request c method keys =
  Return {| req_url := url c;
            req_method := "post";
            req_headers :=
              [("Accept", VString "application/json");
               ("Content-Type", VString "application/json");
               ("x-transmission-session-id", sessionId c);
               ("Authorization", VString (("Basic " ++ auth c)%string))];
            req_data := Some (body_of method o) |}.
Proof.
  intros H. unfold build_request, body_of. simpl. rewrite H. simpl.
  now destruct o.
Qed.

Lemma build_request_stringify_throws (c : Client) (method : string)
  (keys e : value) :
  JSON_stringify keys = Throw e ->
  build_request c method keys = Throw e.
Proof. intros H. unfold build_request. simpl. now rewrite H. Qed.

Lemma build_request_cases (c : Client) (method : string) (keys : value)
  (request : Request) :
  build_request c method keys = Return request ->
  exists o, JSON_stringify keys = Return o /\
            req_data request = Some (body_of method o) /\
            addressed_by c request.
Proof.
  destruct (JSON_stringify keys) as [o|e] eqn:E.
  - rewrite (build_request_returns _ _ _ _ E). intros H. inversion H.
    exists o. repeat split.
  - rewrite (build_request_stringify_throws _ _ _ _ E). discriminate.
Qed.

Lemma build_request_method_name (c : Client) (method : string)
  (keys : value) (request : Request) :
  build_request c method keys = Return request ->
  method_name request = Some method.
Proof.
  intros H. apply build_request_cases in H as (o & _ & D & _).
  unfold method_name. now rewrite D.
Qed.

Lemma addressed_by_set_sessionId (c : Client) (token : value)
  (request : Request) :
  addressed_by (set_sessionId c token) request -> addressed_by c request.
Proof. exact (fun H => H). Qed.

(** Whether the [catch] block goes round again depends on the error
    alone, not on the client. *)
Lemma http_catch_settle (c c' : Client) (e : value) (p : promise) :
  http_catch c e = Settle p -> http_catch c' e = Settle p.
Proof.
  unfold http_catch.
  destruct (strict_eq_number (status_of e) 409).
  - destruct (challenge_header e); [discriminate|exact (fun H => H)].
  - destruct (strict_eq_number (status_of e) 401); exact (fun H => H).
Qed.

Lemma http_catch_retry (c : Client) (e : value) (c' : Client) :
  http_catch c e = Retry c' ->
  exists token,
    c' = set_sessionId c token /\
    strict_eq_number (status_of e) 409 = true /\
    challenge_header e = Return token.
Proof.
  unfold http_catch.
  destruct (strict_eq_number (status_of e) 409).
  - destruct (challenge_header e) as [token|err]; [|discriminate].
    intros H. inversion H. now exists token.
  - destruct (strict_eq_number (status_of e) 401); discriminate.
Qed.

Lemma http_catch_TypeError (c : Client) :
  http_catch c (VError TypeError) = Settle (Rejected (VError TypeError)).
Proof. reflexivity. Qed.

Lemma verdict_any_client (c c' : Client) (out : AxiosOutcome) :
  verdict c out = verdict c' out.
Proof.
  unfold verdict, http_catch. destruct out as [resp|e].
  - destruct (get resp "data") as [data|e]; [reflexivity|].
    destruct (strict_eq_number (status_of e) 409).
    + now destruct (challenge_header e).
    + now destruct (strict_eq_number (status_of e) 401).
  - destruct (strict_eq_number (status_of e) 409).
    + now destruct (challenge_header e).
    + now destruct (strict_eq_number (status_of e) 401).
Qed.

Section TransportFurther.

Variable Server : Type.
Variable axios_request : Request -> Server -> AxiosOutcome * Server.

(** *** Endpoint and credentials *)

Lemma http_keeps_identity (budget : nat) :
  forall (c : Client) (method : string) (keys : value) (s : Server),
    url (client (http axios_request budget c method keys s)) = url c /\
    auth (client (http axios_request budget c method keys s)) = auth c /\
    Forall (fun x : exchange => addressed_by c (fst x))
      (exchanges (http axios_request budget c method keys s)).
Proof.
  induction budget as [|budget IH]; intros c method keys s.
  - split; [reflexivity|]. split; [reflexivity|]. constructor.
  - simpl. unfold http_try.
    destruct (build_request c method keys) as [request|e] eqn:Hb.
    + apply build_request_cases in Hb as (o & _ & _ & Ha).
      destruct (axios_request request s) as [out s'].
      destruct (match out with
                | Fulfilled resp => get resp "data"
                | Failed e => Throw e
                end) as [data|e].
      * simpl. split; [reflexivity|]. split; [reflexivity|].
           constructor; [exact Ha|constructor].
      * destruct (http_catch c e) as [c'|p] eqn:Hc.
        -- apply http_catch_retry in Hc as (token & -> & _ & _).
           destruct (IH (set_sessionId c token) method keys s')
             as (Hu & Hw & Hf).
           simpl. split; [exact Hu|]. split; [exact Hw|].
           constructor; [exact Ha|exact Hf].
        -- simpl. split; [reflexivity|]. split; [reflexivity|].
           constructor; [exact Ha|constructor].
    + apply build_request_throws in Hb. subst e. simpl.
      split; [reflexivity|]. split; [reflexivity|]. constructor.
Qed.

(** *** When the loop goes round *)

Lemma http_nothing_sent (budget : nat) (c : Client) (method : string)
  (keys : value) (s : Server) (request : Request) :
  build_request c method keys = Return request ->
  exchanges (http axios_request budget c method keys s) = [] ->
  budget = O.
Proof.
  intros Hb E. destruct budget as [|budget]; [reflexivity|].
  destruct (http_first_pass _ axios_request budget c method keys s _ Hb)
    as (out & rest & E').
  rewrite E' in E. discriminate.
Qed.

Lemma build_request_any_client (c c' : Client) (method : string)
  (keys : value) (request : Request) :
  build_request c method keys = Return request ->
  exists request', build_request c' method keys = Return request'.
Proof.
  intros H. apply build_request_cases in H as (o & Ho & _ & _).
  eexists. now apply build_request_returns with (o := o).
Qed.

(** The last exchange of a call decides how the call ends. *)
Lemma http_last_exchange (budget : nat) :
  forall (c : Client) (method : string) (keys : value) (s : Server)
    (xs : list exchange) (request : Request) (out : AxiosOutcome),
    exchanges (http axios_request budget c method keys s)
    = xs ++ [(request, out)] ->
    result (http axios_request budget c method keys s) = verdict c out.
Proof.
  induction budget as [|budget IH]; intros c method keys s xs request out.
  - destruct xs; discriminate.
  - simpl. unfold http_try.
    destruct (build_request c method keys) as [request0|e] eqn:Hb.
    + destruct (axios_request request0 s) as [out0 s'].
      destruct out0 as [resp|e].
      * destruct (get resp "data") as [data|e] eqn:Hg.
        -- simpl. intros E. symmetry in E. apply last_of_singleton in E.
           inversion E; subst. simpl. now rewrite Hg.
        -- apply get_throws in Hg as He. subst e. simpl. intros E.
           symmetry in E. apply last_of_singleton in E.
           inversion E; subst. simpl. now rewrite Hg.
      * destruct (http_catch c e) as [c'|p] eqn:Hc.
        -- simpl. intros E. symmetry in E.
           apply last_of_cons in E. destruct E as [[En E]|[xs' E]].
           ++ inversion E; subst. simpl. rewrite Hc.
              destruct (build_request_any_client _ c' _ _ _ Hb)
                as [request' Hb'].
              rewrite (http_nothing_sent _ _ _ _ _ _ Hb' En). reflexivity.
           ++ rewrite (IH _ _ _ _ _ _ _ E). apply verdict_any_client.
        -- simpl. intros E. symmetry in E. apply last_of_singleton in E.
           inversion E; subst. simpl. now rewrite Hc.
    + apply build_request_throws in Hb. subst e. simpl.
      destruct xs; discriminate.
Qed.

(** A request is followed by another only when it met a readable 409; a
    call that is still going when the budget is spent has met nothing
    else and has used every pass. *)
Lemma http_goes_round_on_challenges (budget : nat) :
  forall (c : Client) (method : string) (keys : value) (s : Server),
    Forall is_challenge
      (removelast (exchanges (http axios_request budget c method keys s)))
    /\
    (result (http axios_request budget c method keys s) = None ->
     Forall is_challenge
       (exchanges (http axios_request budget c method keys s)) /\
     List.length (exchanges (http axios_request budget c method keys s))
     = budget).
Proof.
  induction budget as [|budget IH]; intros c method keys s.
  - split; [constructor|]. intros _. split; [constructor|reflexivity].
  - simpl. unfold http_try.
    destruct (build_request c method keys) as [request|e] eqn:Hb.
    + destruct (axios_request request s) as [out s'].
      destruct out as [resp|e].
      * destruct (get resp "data") as [data|e] eqn:Hg.
        -- simpl. split; [constructor|discriminate].
        -- apply get_throws in Hg. subst e. simpl.
           split; [constructor|discriminate].
      * destruct (http_catch c e) as [c'|p] eqn:Hc.
        -- apply http_catch_retry in Hc as (token & -> & H409 & Hh).
           assert (X : is_challenge (request, Failed e)).
           { exists token. unfold challenge_token. simpl.
             now rewrite H409, Hh. }
           destruct (IH (set_sessionId c token) method keys s') as [Hr Hn].
           simpl. split.
           ++ destruct (exchanges (http axios_request budget
                                     (set_sessionId c token) method keys s'))
                as [|y ys] eqn:Ey; [constructor|].
              constructor; [exact X|exact Hr].
           ++ intros N. destruct (Hn N) as [Hf Hl].
              split; [now constructor|now rewrite Hl].
        -- simpl. split; [constructor|discriminate].
    + apply build_request_throws in Hb. subst e. simpl.
      split; [constructor|discriminate].
Qed.

(** Arguments that cannot be serialised: the TypeError of
    [JSON.stringify] is caught and handed to [reject]. *)
Lemma http_unserialisable (budget : nat) (c : Client) (method : string)
  (keys e : value) (s : Server) :
  JSON_stringify keys = Throw e ->
  http axios_request (S budget) c method keys s =
  finish (Rejected (VError TypeError)) c s [].
Proof.
  intros H. pose proof (JSON_stringify_throws _ _ H). subst e.
  simpl. unfold http_try.
  now rewrite (build_request_stringify_throws _ _ _ _ H).
Qed.

(** *** The facade follows its table *)

Lemma invoke_by_table (budget : nat) (k : call) (c : Client) (s : Server) :
  match payload_of k with
  | Throw e =>
      invoke axios_request budget k c s = finish (Rejected e) c s []
  | Return payload =>
      exchanges (invoke axios_request budget k c s) =
      exchanges (http axios_request budget c (remote_method k) payload s) /\
      server (invoke axios_request budget k c s) =
      server (http axios_request budget c (remote_method k) payload s) /\
      result (invoke axios_request budget k c s) =
      settle k
        (result (http axios_request budget c (remote_method k) payload s))
  end.
Proof.
  destruct k; simpl;
    unfold startTorrents, startNowTorrents, stopTorrents, verifyTorrents,
      reannounceTorrents, ids_operation, setTorrents, getTorrents,
      addTorrent, removeTorrent, moveTorrent, renameTorrent, setSession,
      getSession, sessionStats, blocklistUpdate, portTest, disconnect,
      queueMoveTop, queueMoveUp, queueMoveDown, queueMoveBottom,
      queue_operation, freeSpace, groupSet, groupGet, keys_operation,
      await_http;
    try (destruct (Object_assign _) as [payload|e]; [|reflexivity]);
    match goal with
    | |- context [result (http axios_request budget c ?m ?p s)] =>
        destruct (result (http axios_request budget c m p s))
          as [[body|e|u]|] eqn:R
    end;
    simpl; rewrite ?R; repeat split.
Qed.

Lemma invoke_exchanges (budget : nat) (k : call) (c : Client) (s : Server) :
  exchanges (invoke axios_request budget k c s) = [] \/
  exists payload,
    payload_of k = Return payload /\
    exchanges (invoke axios_request budget k c s) =
    exchanges (http axios_request budget c (remote_method k) payload s).
Proof.
  pose proof (invoke_by_table budget k c s) as T.
  destruct (payload_of k) as [payload|e].
  - right. exists payload. split; [reflexivity|apply T].
  - left. now rewrite T.
Qed.

(** An operation whose last exchange is [out] ends as [http] does on
    [out], read through the operation's executor. *)
Lemma invoke_last_exchange (budget : nat) (k : call) (c : Client)
  (s : Server) (xs : list exchange) (request : Request)
  (out : AxiosOutcome) :
  exchanges (invoke axios_request budget k c s) = xs ++ [(request, out)] ->
  result (invoke axios_request budget k c s) = settle k (verdict c out).
Proof.
  intros E. pose proof (invoke_by_table budget k c s) as T.
  destruct (payload_of k) as [payload|e].
  - destruct T as (Tx & _ & Tr). rewrite Tr. rewrite Tx in E.
    now rewrite (http_last_exchange _ _ _ _ _ _ _ _ E).
  - rewrite T in E. destruct xs; discriminate.
Qed.

Lemma invoke_keeps_identity (budget : nat) (k : call) (c : Client)
  (s : Server) :
  url (client (invoke axios_request budget k c s)) = url c /\
  auth (client (invoke axios_request budget k c s)) = auth c /\
  Forall (fun x : exchange => addressed_by c (fst x))
    (exchanges (invoke axios_request budget k c s)).
Proof.
  assert (N : forall p, url (client (finish p c s [])) = url c /\
                        auth (client (finish p c s [])) = auth c /\
                        Forall (fun x : exchange => addressed_by c (fst x))
                          (exchanges (finish p c s [])))
    by (intros p; simpl; repeat split; constructor).
  destruct k; simpl;
    unfold startTorrents, startNowTorrents, stopTorrents, verifyTorrents,
      reannounceTorrents, ids_operation, setTorrents, getTorrents,
      addTorrent, removeTorrent, moveTorrent, renameTorrent, setSession,
      getSession, sessionStats, blocklistUpdate, portTest,
      queueMoveTop, queueMoveUp, queueMoveDown, queueMoveBottom,
      queue_operation, freeSpace, groupSet, groupGet, keys_operation;
    try (destruct (Object_assign _) as [payload|e]; [|apply N]);
    rewrite ?await_http_exchanges, ?await_http_client;
    try apply http_keeps_identity.
  unfold disconnect.
  pose proof (http_keeps_identity budget c "session-close" VUndefined s)
    as (Hu & Ha & Hf).
  destruct (result (http axios_request budget c "session-close"
                      VUndefined s)) as [[body|e|u]|];
    simpl; auto.
Qed.

Lemma addressed_by_same (c c' : Client) (request : Request) :
  url c' = url c -> auth c' = auth c ->
  addressed_by c' request -> addressed_by c request.
Proof. unfold addressed_by. intros -> ->. exact (fun H => H). Qed.

(** X1.  Endpoint and credentials.  Along any sequence of calls on one
    instance the URL and the encoded credentials stay those the client
    had at the start, and every request, retries included, is a post to
    that URL with the JSON Accept and Content-Type headers and the
    header Authorization: Basic followed by those credentials. *)
Theorem session_keeps_endpoint_and_credentials
  (budget : nat) (ks : list call) :
  forall (c : Client) (s : Server),
    Forall (fun kr : call * run Server =>
              url (client (snd kr)) = url c /\
              auth (client (snd kr)) = auth c /\
              Forall (fun x : exchange => addressed_by c (fst x))
                (exchanges (snd kr)))
      (session axios_request budget ks c s).
Proof.
  induction ks as [|k ks IH]; intros c s; simpl; [constructor|].
  pose proof (invoke_keeps_identity budget k c s) as (Hu & Ha & Hf).
  constructor; [simpl; auto|].
  destruct (result (invoke axios_request budget k c s)); [|constructor].
  eapply Forall_impl; [|apply IH].
  intros kr (Hu' & Ha' & Hf'). rewrite Hu, Ha in *.
  split; [exact Hu'|]. split; [exact Ha'|].
  eapply Forall_impl; [|exact Hf'].
  intros x. now apply addressed_by_same.
Qed.

(** X2.  Retry only after a challenge.  Whatever the operation, each of
    its requests but the last met a 409 whose token could be read:
    nothing is sent again after a success, a 401, another status or a
    network error.  A call that has not ended when its passes are used up
    has met only such 409s, one per pass. *)
Theorem invoke_sends_again_only_after_challenge
  (budget : nat) (k : call) (c : Client) (s : Server) :
  Forall is_challenge
    (removelast (exchanges (invoke axios_request budget k c s)))
  /\
  (result (invoke axios_request budget k c s) = None ->
   Forall is_challenge (exchanges (invoke axios_request budget k c s)) /\
   List.length (exchanges (invoke axios_request budget k c s)) = budget).
Proof.
  pose proof (invoke_by_table budget k c s) as T.
  destruct (payload_of k) as [payload|e].
  - destruct T as (Tx & _ & Tr). rewrite Tx, Tr.
    destruct (http_goes_round_on_challenges budget c (remote_method k)
                payload s) as [Hr Hn].
    split; [exact Hr|]. intros N. apply Hn.
    now destruct (result (http axios_request budget c (remote_method k)
                            payload s)) as [[body|e|u]|].
  - rewrite T. simpl. split; [constructor|discriminate].
Qed.

(** *** A server that never accepts *)

Lemma http_never_settles (budget : nat) :
  forall (c : Client) (method : string) (keys : value) (o : option json)
    (s : Server),
    (forall request s0, exists e token,
        fst (axios_request request s0) = Failed e /\
        status_of e = VNumber 409 /\
        challenge_header e = Return token) ->
    JSON_stringify keys = Return o ->
    result (http axios_request budget c method keys s) = None /\
    List.length (exchanges (http axios_request budget c method keys s))
    = budget.
Proof.
  induction budget as [|budget IH]; intros c method keys o s Hs Hj.
  - split; reflexivity.
  - simpl. unfold http_try.
    rewrite (build_request_returns c method keys o Hj).
    match goal with
    | |- context [axios_request ?r s] =>
        destruct (Hs r s) as (e & token & Ho & H409 & Hh);
        destruct (axios_request r s) as [out s']
    end.
    simpl in Ho. subst out. unfold http_catch. rewrite H409, Hh. simpl.
    destruct (IH (set_sessionId c token) method keys o s' Hs Hj) as [Hr Hl].
    split; [exact Hr|now rewrite Hl].
Qed.

(** X3.  No cap on the retries.  Against a server that answers every
    request with a 409 carrying a session header, no operation whose
    arguments can be serialised ever ends: however many passes are
    allowed, the promise is still unsettled and one request has been
    sent per pass. *)
Theorem invoke_never_settles_under_constant_challenge
  (budget : nat) (k : call) (c : Client) (s : Server)
  (payload : value) (o : option json)
  (Hserver : forall request s0, exists e token,
      fst (axios_request request s0) = Failed e /\
      status_of e = VNumber 409 /\
      challenge_header e = Return token)
  (Hpayload : payload_of k = Return payload)
  (Hjson : JSON_stringify payload = Return o) :
  result (invoke axios_request budget k c s) = None /\
  List.length (exchanges (invoke axios_request budget k c s)) = budget.
Proof.
  pose proof (invoke_by_table budget k c s) as T. rewrite Hpayload in T.
  destruct T as (Tx & _ & Tr). rewrite Tx, Tr.
  destruct (http_never_settles budget c (remote_method k) payload o s
              Hserver Hjson) as [Hr Hl].
  rewrite Hr. split; [reflexivity|exact Hl].
Qed.

(** *** How an operation ends on a failed last exchange *)

(** X4.  A 401 through the facade.  Whatever the operation, when its
    last exchange is a rejection with status 401 its promise is never
    settled: the string thrown in [http] reaches no [catch] of the
    facade either. *)
Theorem invoke_unauthorized_never_settles
  (budget : nat) (k : call) (c : Client) (s : Server)
  (xs : list exchange) (request : Request) (e : value)
  (Hlast : exchanges (invoke axios_request budget k c s)
           = xs ++ [(request, Failed e)])
  (H401 : status_of e = VNumber 401) :
  result (invoke axios_request budget k c s)
  = Some (Pending (VString "Unauthorized to access RPC Server")).
Proof.
  rewrite (invoke_last_exchange _ _ _ _ _ _ _ Hlast).
  unfold verdict, http_catch. rewrite H401. reflexivity.
Qed.

(** X5.  Any other failure through the facade.  When the last exchange
    of an operation is a rejection whose status is neither 409 nor 401
    (or that has no status), an operation whose executor names [reject]
    rejects with that very error; [disconnect] and the four queue
    operations, which do not, end in a ReferenceError and are never
    settled. *)
Theorem invoke_other_failure
  (budget : nat) (k : call) (c : Client) (s : Server)
  (xs : list exchange) (request : Request) (e : value)
  (Hlast : exchanges (invoke axios_request budget k c s)
           = xs ++ [(request, Failed e)])
  (Hnot409 : status_of e <> VNumber 409)
  (Hnot401 : status_of e <> VNumber 401) :
  result (invoke axios_request budget k c s)
  = Some (if names_reject k then Rejected e
          else Pending (VError ReferenceError)).
Proof.
  rewrite (invoke_last_exchange _ _ _ _ _ _ _ Hlast).
  unfold verdict, http_catch.
  rewrite (strict_eq_number_false _ _ Hnot409).
  rewrite (strict_eq_number_false _ _ Hnot401).
  reflexivity.
Qed.

Lemma challenge_header_throws (e err : value) :
  challenge_header e = Throw err -> err = VError TypeError.
Proof.
  unfold challenge_header.
  destruct (get e "response") as [r|e1] eqn:E1; simpl.
  - destruct (get r "headers") as [h|e2] eqn:E2; simpl.
    + apply get_throws.
    + intros H; inversion H; subst. now apply get_throws in E2.
  - intros H; inversion H; subst. now apply get_throws in E1.
Qed.

(** X6.  A 409 without headers.  When the last exchange of an operation
    is a 409 whose response has no headers object to read the token
    from, the TypeError of that read leaves the [catch] of [http]: the
    promise is never settled, whatever the operation. *)
Theorem invoke_challenge_without_headers
  (budget : nat) (k : call) (c : Client) (s : Server)
  (xs : list exchange) (request : Request) (e err : value)
  (Hlast : exchanges (invoke axios_request budget k c s)
           = xs ++ [(request, Failed e)])
  (H409 : status_of e = VNumber 409)
  (Hheaders : challenge_header e = Throw err) :
  result (invoke axios_request budget k c s)
  = Some (Pending (VError TypeError)).
Proof.
  rewrite (invoke_last_exchange _ _ _ _ _ _ _ Hlast).
  unfold verdict, http_catch. rewrite H409, Hheaders. simpl.
  now rewrite (challenge_header_throws _ _ Hheaders).
Qed.

(** X7.  Arguments that cannot be serialised.  When the arguments an
    operation hands to [http] make [JSON.stringify] throw (a BigInt
    somewhere inside), nothing is sent and the server is not touched; the
    operation rejects with the TypeError, except [disconnect] and the
    queue operations, which are never settled. *)
Theorem invoke_unserialisable_arguments
  (budget : nat) (k : call) (c : Client) (s : Server) (payload e : value)
  (Hpayload : payload_of k = Return payload)
  (Hjson : JSON_stringify payload = Throw e) :
  result (invoke axios_request (S budget) k c s)
  = Some (if names_reject k then Rejected (VError TypeError)
          else Pending (VError ReferenceError)) /\
  exchanges (invoke axios_request (S budget) k c s) = [] /\
  server (invoke axios_request (S budget) k c s) = s.
Proof.
  pose proof (invoke_by_table (S budget) k c s) as T.
  rewrite Hpayload in T. destruct T as (Tx & Ts & Tr).
  rewrite Tx, Ts, Tr.
  rewrite (http_unserialisable budget c (remote_method k) payload e s Hjson).
  repeat split.
Qed.

(** *** What goes on the wire *)

(** X8.  The body of the requests.  Every request an operation sends,
    retries included, has the same body: the remote method of the
    operation and, under arguments, the serialised value the operation
    hands to [http]; the arguments member is left out when that value is
    undefined. *)
Theorem invoke_request_bodies
  (budget : nat) (k : call) (c : Client) (s : Server)
  (payload : value) (o : option json)
  (Hpayload : payload_of k = Return payload)
  (Hjson : JSON_stringify payload = Return o) :
  Forall (fun x : exchange =>
            req_data (fst x) = Some (body_of (remote_method k) o))
    (exchanges (invoke axios_request budget k c s)).
Proof.
  pose proof (invoke_by_table budget k c s) as T.
  rewrite Hpayload in T. destruct T as (Tx & _ & _). rewrite Tx.
  eapply Forall_impl; [|apply http_requests_built].
  intros x [c' Hb]. apply build_request_cases in Hb as (o' & Ho & D & _).
  rewrite Hjson in Ho. inversion Ho. now subst o'.
Qed.

Lemma invoke_first_method (budget : nat) (k : call) (c : Client)
  (s : Server) (request : Request) :
  first_request (exchanges (invoke axios_request budget k c s))
  = Some request ->
  method_name request = Some (remote_method k).
Proof.
  intros Hf. destruct (invoke_exchanges budget k c s) as [E|(payload & _ & E)].
  - rewrite E in Hf. discriminate.
  - rewrite E in Hf.
    pose proof (http_requests_built _ axios_request budget c
                  (remote_method k) payload s) as B.
    destruct (exchanges (http axios_request budget c (remote_method k)
                           payload s)) as [|x rest]; [discriminate|].
    inversion Hf; subst. inversion B as [|? ? [c' Hb] _]; subst.
    now apply build_request_method_name in Hb.
Qed.

End TransportFurther.

(** ** The facade *)

Section FacadeFurther.

Variable Server : Type.
Variable axios_request : Request -> Server -> AxiosOutcome * Server.

(** X9.  Remote methods do not collide, but for one pair.  Two public
    operations whose first requests name the same remote method are the
    same operation, or they are [portTest] and [blocklistUpdate]. *)
Theorem only_portTest_shares_a_remote_method
  (budget budget' : nat) (k k' : call) (c c' : Client) (s s' : Server)
  (request request' : Request)
  (Hk : is_http k = false)
  (Hk' : is_http k' = false)
  (Hfirst : first_request (exchanges (invoke axios_request budget k c s))
            = Some request)
  (Hfirst' : first_request
               (exchanges (invoke axios_request budget' k' c' s'))
             = Some request')
  (Hsame : method_name request = method_name request') :
  same_operation k k' = true \/
  (k = PortTest /\ k' = BlocklistUpdate) \/
  (k = BlocklistUpdate /\ k' = PortTest).
Proof.
  apply invoke_first_method in Hfirst, Hfirst'.
  rewrite Hfirst, Hfirst' in Hsame. inversion Hsame as [M]. clear - Hk Hk' M.
  destruct k; try discriminate Hk;
    destruct k'; try discriminate Hk'; simpl in M;
    solve [ left; reflexivity | discriminate M | right; auto ].
Qed.

(** *** Reading the body *)

Lemma ids_operation_answered (method : string) (budget : nat) (c : Client)
  (ids : value) (s : Server) (body : value) :
  answered (ids_operation axios_request method budget c ids s) body ->
  result (ids_operation axios_request method budget c ids s)
  = Some (try_resolve true (arguments_or_null body)).
Proof.
  unfold ids_operation. destruct (Object_assign _) as [payload|e].
  - apply await_http_answered.
  - intros (xs & request & resp & E & _). destruct xs; discriminate.
Qed.

Lemma arguments_or_null_success (body a : value) :
  get body "result" = Return (VString "success") ->
  get body "arguments" = Return a ->
  arguments_or_null body = Return a.
Proof. intros Hr Ha. unfold arguments_or_null. now rewrite Hr. Qed.

Lemma arguments_or_result_success (body a : value) :
  get body "result" = Return (VString "success") ->
  get body "arguments" = Return a ->
  arguments_or_result body = Return a.
Proof. intros Hr Ha. unfold arguments_or_result. now rewrite Hr. Qed.

(** X10.  Result success.  When the body of the response has result
    success, every operation that reads the body (all but [disconnect])
    resolves with the value of its arguments member, undefined when there
    is none; this includes the four queue operations. *)
Theorem success_resolves_with_arguments
  (budget : nat) (c : Client) (s : Server) (body a : value)
  (Hresult : get body "result" = Return (VString "success"))
  (Harguments : get body "arguments" = Return a) :
  (forall method ids,
      answered (ids_operation axios_request method budget c ids s) body ->
      result (ids_operation axios_request method budget c ids s)
      = Some (Resolved a))
  /\
  (forall method keys,
      answered (keys_operation axios_request method budget c keys s) body ->
      result (keys_operation axios_request method budget c keys s)
      = Some (Resolved a))
  /\
  (forall method ids,
      answered (queue_operation axios_request method budget c ids s) body ->
      result (queue_operation axios_request method budget c ids s)
      = Some (Resolved a))
  /\
  (forall fields,
      answered (setTorrents axios_request budget c fields s) body ->
      result (setTorrents axios_request budget c fields s)
      = Some (Resolved a))
  /\
  (forall ids fields,
      answered (getTorrents axios_request budget c ids fields s) body ->
      result (getTorrents axios_request budget c ids fields s)
      = Some (Resolved a)).
Proof.
  pose proof (arguments_or_null_success _ _ Hresult Harguments) as Hn.
  pose proof (arguments_or_result_success _ _ Hresult Harguments) as Hr.
  repeat split.
  - intros method ids A. rewrite (ids_operation_answered _ _ _ _ _ _ A).
    now rewrite Hn.
  - intros method keys A. unfold keys_operation in *.
    rewrite (await_http_answered _ _ _ _ _ _ _ _ _ _ A). now rewrite Hr.
  - intros method ids A. unfold queue_operation in *.
    rewrite (await_http_answered _ _ _ _ _ _ _ _ _ _ A). now rewrite Hr.
  - intros fields A. unfold setTorrents in *.
    rewrite (await_http_answered _ _ _ _ _ _ _ _ _ _ A). now rewrite Hn.
  - intros ids fields A. unfold getTorrents in *.
    rewrite (await_http_answered _ _ _ _ _ _ _ _ _ _ A). now rewrite Hn.
Qed.

(** X11.  Result other than success, the remaining operations.  With a
    body whose result is not the string success, [setTorrents] and
    [getTorrents] resolve with null like the five ids operations, and the
    four queue operations resolve with the value of the result field. *)
Theorem non_success_set_get_and_queue
  (budget : nat) (c : Client) (s : Server) (body res : value)
  (Hresult : get body "result" = Return res)
  (Hfailure : res <> VString "success") :
  (forall fields,
      answered (setTorrents axios_request budget c fields s) body ->
      result (setTorrents axios_request budget c fields s)
      = Some (Resolved VNull))
  /\
  (forall ids fields,
      answered (getTorrents axios_request budget c ids fields s) body ->
      result (getTorrents axios_request budget c ids fields s)
      = Some (Resolved VNull))
  /\
  (forall method ids,
      answered (queue_operation axios_request method budget c ids s) body ->
      result (queue_operation axios_request method budget c ids s)
      = Some (Resolved res)).
Proof.
  pose proof (arguments_or_null_failure _ _ Hresult Hfailure) as Hn.
  pose proof (arguments_or_result_failure _ _ Hresult Hfailure) as Hr.
  repeat split.
  - intros fields A. unfold setTorrents in *.
    rewrite (await_http_answered _ _ _ _ _ _ _ _ _ _ A). now rewrite Hn.
  - intros ids fields A. unfold getTorrents in *.
    rewrite (await_http_answered _ _ _ _ _ _ _ _ _ _ A). now rewrite Hn.
  - intros method ids A. unfold queue_operation in *.
    rewrite (await_http_answered _ _ _ _ _ _ _ _ _ _ A). now rewrite Hr.
Qed.

(** X12.  A response without a body.  When the response's data is null
    or undefined, [http] itself resolves with it, but reading its result
    is a TypeError: the operations whose executor names [reject] reject
    with that TypeError and the queue operations are never settled. *)
Theorem missing_body_is_a_TypeError
  (budget : nat) (c : Client) (s : Server) (body : value)
  (Hmissing : nullish body = true) :
  (forall method keys,
      answered (http axios_request budget c method keys s) body ->
      result (http axios_request budget c method keys s)
      = Some (Resolved body))
  /\
  (forall method ids,
      answered (ids_operation axios_request method budget c ids s) body ->
      result (ids_operation axios_request method budget c ids s)
      = Some (Rejected (VError TypeError)))
  /\
  (forall method keys,
      answered (keys_operation axios_request method budget c keys s) body ->
      result (keys_operation axios_request method budget c keys s)
      = Some (Rejected (VError TypeError)))
  /\
  (forall fields,
      answered (setTorrents axios_request budget c fields s) body ->
      result (setTorrents axios_request budget c fields s)
      = Some (Rejected (VError TypeError)))
  /\
  (forall ids fields,
      answered (getTorrents axios_request budget c ids fields s) body ->
      result (getTorrents axios_request budget c ids fields s)
      = Some (Rejected (VError TypeError)))
  /\
  (forall method ids,
      answered (queue_operation axios_request method budget c ids s) body ->
      result (queue_operation axios_request method budget c ids s)
      = Some (Pending (VError ReferenceError))).
Proof.
  assert (Hn : arguments_or_null body = Throw (VError TypeError))
    by (destruct body; try discriminate Hmissing; reflexivity).
  assert (Hr : arguments_or_result body = Throw (VError TypeError))
    by (destruct body; try discriminate Hmissing; reflexivity).
  repeat split.
  - intros method keys. apply http_answered.
  - intros method ids A. rewrite (ids_operation_answered _ _ _ _ _ _ A).
    now rewrite Hn.
  - intros method keys A. unfold keys_operation in *.
    rewrite (await_http_answered _ _ _ _ _ _ _ _ _ _ A). now rewrite Hr.
  - intros fields A. unfold setTorrents in *.
    rewrite (await_http_answered _ _ _ _ _ _ _ _ _ _ A). now rewrite Hn.
  - intros ids fields A. unfold getTorrents in *.
    rewrite (await_http_answered _ _ _ _ _ _ _ _ _ _ A). now rewrite Hn.
  - intros method ids A. unfold queue_operation in *.
    rewrite (await_http_answered _ _ _ _ _ _ _ _ _ _ A). now rewrite Hr.
Qed.

(** X13.  Disconnect does not read the body.  Whenever the session-close
    request gets an HTTP success, [disconnect] resolves with undefined
    and the token is cleared, whatever the body says, a result other
    than success or no body at all included. *)
Theorem disconnect_ignores_the_body
  (budget : nat) (c : Client) (s : Server) (body : value)
  (Hanswered : answered (disconnect axios_request budget c s) body) :
  result (disconnect axios_request budget c s) = Some (Resolved VUndefined)
  /\ sessionId (client (disconnect axios_request budget c s)) = VNull.
Proof.
  destruct Hanswered as (xs & request & resp & E & Hd).
  rewrite disconnect_exchanges in E.
  assert (A : answered (http axios_request budget c "session-close"
                          VUndefined s) body)
    by (now exists xs, request, resp).
  apply http_answered in A. unfold disconnect. rewrite A. split; reflexivity.
Qed.

(** *** Arguments as they are sent *)

(** X14.  Truthy ids.  Called with a truthy ids that can be serialised
    (a number other than 0, a non-empty string such as recently-active,
    an array), each of the five ids operations sends, on every pass, the
    arguments mapping with the single member ids. *)
Theorem truthy_ids_sent_as_mapping
  (budget : nat) (method : string) (c : Client) (s : Server)
  (ids : value) (j : json)
  (Htruthy : truthy ids = true)
  (Hjson : JSON_stringify ids = Return (Some j)) :
  (exists x rest,
      exchanges (ids_operation axios_request method (S budget) c ids s)
      = x :: rest)
  /\
  Forall (fun x : exchange =>
            req_data (fst x) =
            Some (JObj [("method", JStr method);
                        ("arguments", JObj [("ids", j)])]))
    (exchanges (ids_operation axios_request method budget c ids s)).
Proof.
  assert (P : Object_assign (js_and ids (VObject [("ids", ids)]))
              = Return (VObject [("ids", ids)]))
    by (unfold js_and; now rewrite Htruthy).
  assert (J : JSON_stringify (VObject [("ids", ids)])
              = Return (Some (JObj [("ids", j)])))
    by (simpl; now rewrite Hjson).
  unfold ids_operation. rewrite P, !await_http_exchanges. split.
  - destruct (http_first_pass _ axios_request budget c method _ s _
                (build_request_returns c method _ _ J)) as (out & rest & E).
    rewrite E. eauto.
  - eapply Forall_impl; [|apply http_requests_built].
    intros x [c' Hb]. apply build_request_cases in Hb as (o & Ho & D & _).
    rewrite J in Ho. inversion Ho; subst o. exact D.
Qed.

Lemma default_param_given (v d : value) (j : json) :
  JSON_stringify v = Return (Some j) -> default_param v d = v.
Proof. destruct v; simpl; try reflexivity. discriminate. Qed.

(** X15.  [getTorrents] with arguments.  A given ids or fields (anything
    but undefined, null included) is sent as it is, fields first; only a
    parameter left undefined takes its default, each on its own. *)
Theorem getTorrents_passes_arguments
  (budget : nat) (c : Client) (s : Server) (ids fields : value)
  (ji jf : json)
  (Hids : JSON_stringify ids = Return (Some ji))
  (Hfields : JSON_stringify fields = Return (Some jf)) :
  Forall (fun x : exchange =>
            req_data (fst x) =
            Some (JObj [("method", JStr "torrent-get");
                        ("arguments", JObj [("fields", jf); ("ids", ji)])]))
    (exchanges (getTorrents axios_request budget c ids fields s))
  /\
  Forall (fun x : exchange =>
            req_data (fst x) =
            Some (JObj [("method", JStr "torrent-get");
                        ("arguments",
                         JObj [("fields",
                                JArr [JStr "id"; JStr "name"; JStr "status";
                                      JStr "downloadedEver";
                                      JStr "uploadedEver"]);
                               ("ids", ji)])]))
    (exchanges (getTorrents axios_request budget c ids VUndefined s))
  /\
  Forall (fun x : exchange =>
            req_data (fst x) =
            Some (JObj [("method", JStr "torrent-get");
                        ("arguments", JObj [("fields", jf); ("ids", JNum 0)])]))
    (exchanges (getTorrents axios_request budget c VUndefined fields s)).
Proof.
  unfold getTorrents.
  rewrite (default_param_given ids (VNumber 0) ji Hids).
  rewrite (default_param_given fields default_fields jf Hfields).
  simpl default_param. rewrite !await_http_exchanges.
  repeat split;
    (eapply Forall_impl; [|apply http_requests_built]);
    intros x [c' Hb]; apply build_request_cases in Hb as (o & Ho & D & _);
    simpl in Ho; rewrite ?Hids, ?Hfields in Ho; simpl in Ho;
    inversion Ho; subst o; exact D.
Qed.

(** *** Construction *)

Variable URL_toString : string -> throws string.
Variable base64 : string -> string.

(** X16.  A new client.  Construction fails exactly when the URL does
    not parse, with the parser's error.  Otherwise the client holds the
    normalised URL and no token, and the first request of whatever call
    comes first goes to that URL with a null session header and the
    header Authorization: Basic base64(user:password). *)
Theorem constructor_starts_without_token (u user password : string) :
  match URL_toString u with
  | Throw e => constructor URL_toString base64 u user password = Throw e
  | Return normalised =>
      exists c : Client,
        constructor URL_toString base64 u user password = Return c /\
        url c = normalised /\
        sessionId c = VNull /\
        forall (budget : nat) (k : call) (s : Server) (request : Request),
          first_request (exchanges (invoke axios_request budget k c s))
          = Some request ->
          session_header request = VNull /\
          req_url request = normalised /\
          lookup "Authorization" (req_headers request)
          = VString (("Basic " ++ base64 (user ++ ":" ++ password))%string)
  end.
Proof.
  unfold constructor. destruct (URL_toString u) as [normalised|e];
    [|reflexivity].
  eexists. split; [reflexivity|]. split; [reflexivity|].
  split; [reflexivity|].
  intros budget k s request Hf.
  split; [now apply invoke_first_request in Hf|].
  match goal with
  | _ : first_request (exchanges (invoke _ _ _ ?c _)) = _ |- _ =>
      pose proof (invoke_keeps_identity _ axios_request budget k c s)
        as (_ & _ & F)
  end.
  destruct (exchanges _) as [|x rest]; [discriminate|].
  inversion Hf; subst. inversion F as [|? ? (Hu & _ & _ & _ & Ha) _]; subst.
  split; [exact Hu|exact Ha].
Qed.

End FacadeFurther.

(** ** The handshake *)

Section Handshake.

Variable Server : Type.
Variable axios_request : Request -> Server -> AxiosOutcome * Server.

(** X17.  The handshake converges.  Take a server that holds a token,
    answers every request its check [accepts] with an HTTP success, and
    rejects any other with a 409 carrying the token, where [accepts]
    passes every request whose session header is the token.  Then a call
    of [http] with serialisable arguments resolves after at most two
    requests, one if the first is accepted, and the client holds the
    server's token whenever a challenge was needed. *)
Theorem http_handshake_converges
  (token_of : Server -> value) (accepts : Request -> Server -> bool)
  (budget : nat) (c : Client) (method : string) (keys : value)
  (o : option json) (s : Server)
  (Hjson : JSON_stringify keys = Return o)
  (Hknown : forall request s0,
      session_header request = token_of s0 -> accepts request s0 = true)
  (Haccept : forall request s0,
      accepts request s0 = true ->
      exists resp data,
        fst (axios_request request s0) = Fulfilled resp /\
        get resp "data" = Return data)
  (Hchallenge : forall request s0,
      accepts request s0 = false ->
      exists e,
        fst (axios_request request s0) = Failed e /\
        status_of e = VNumber 409 /\
        challenge_header e = Return (token_of s0) /\
        token_of (snd (axios_request request s0)) = token_of s0) :
  exists data : value,
    result (http axios_request (S (S budget)) c method keys s)
    = Some (Resolved data) /\
    ((List.length
        (exchanges (http axios_request (S (S budget)) c method keys s))
      = 1%nat /\
      client (http axios_request (S (S budget)) c method keys s) = c)
     \/
     (List.length
        (exchanges (http axios_request (S (S budget)) c method keys s))
      = 2%nat /\
      sessionId (client (http axios_request (S (S budget)) c method keys s))
      = token_of s)).
Proof.
  pose proof (build_request_returns c method keys o Hjson) as Hb.
  remember (S budget) as b eqn:Eb.
  simpl. unfold http_try. rewrite Hb.
  match goal with
  | |- context [axios_request ?r s] => set (request := r) in *
  end.
  destruct (accepts request s) eqn:A.
  - destruct (Haccept _ _ A) as (resp & data & Ho & Hd).
    destruct (axios_request request s) as [out s1]. simpl in Ho. subst out.
    rewrite Hd. exists data. split; [reflexivity|]. left. now split.
  - destruct (Hchallenge _ _ A) as (e & Ho & H409 & Hh & Ht).
    destruct (axios_request request s) as [out s1]. simpl in Ho, Ht.
    subst out. unfold http_catch. rewrite H409, Hh.
    subst b. simpl. unfold http_try.
    rewrite (build_request_returns (set_sessionId c (token_of s)) method
               keys o Hjson).
    match goal with
    | |- context [axios_request ?r s1] => set (request' := r) in *
    end.
    assert (A' : accepts request' s1 = true)
      by (apply Hknown; now rewrite Ht).
    destruct (Haccept _ _ A') as (resp & data & Ho' & Hd).
    destruct (axios_request request' s1) as [out s2]. simpl in Ho'.
    subst out. rewrite Hd. exists data. split; [reflexivity|].
    right. now split.
Qed.

End Handshake.

(** ** The further theorems at work *)

Lemma invoke_never_settles_under_constant_challenge_witness :
  result (invoke always_challenges 5 SessionStats fresh_client O) = None /\
  List.length (exchanges (invoke always_challenges 5 SessionStats
                            fresh_client O)) = 5%nat.
Proof.
  apply (invoke_never_settles_under_constant_challenge _ always_challenges
           5 SessionStats fresh_client O VUndefined None
           (fun _ _ =>
              ex_intro _ _ (ex_intro _ (VString "stale")
                              (conj eq_refl (conj eq_refl eq_refl))))
           eq_refl).
  reflexivity.
Defined.

Lemma invoke_unauthorized_never_settles_witness :
  result (invoke scripted 3 (GetSession (VArray [VString "version"]))
            fresh_client [unauthorized; ok torrents_body])
  = Some (Pending (VString "Unauthorized to access RPC Server")).
Proof.
  apply (invoke_unauthorized_never_settles _ scripted 3
           (GetSession (VArray [VString "version"])) fresh_client
           [unauthorized; ok torrents_body] [] _ _ eq_refl eq_refl).
Defined.

Lemma invoke_other_failure_witness :
  status_of network_error <> VNumber 409 /\
  status_of network_error <> VNumber 401 /\
  result (invoke scripted 3 (QueueMoveUp (VArray [VNumber 4]))
            fresh_client [])
  = Some (Pending (VError ReferenceError)) /\
  result (invoke scripted 3 (FreeSpace (VString "/srv")) fresh_client [])
  = Some (Rejected network_error).
Proof.
  assert (N9 : status_of network_error <> VNumber 409) by discriminate.
  assert (N1 : status_of network_error <> VNumber 401) by discriminate.
  split; [exact N9|]. split; [exact N1|]. split.
  - apply (invoke_other_failure _ scripted 3
             (QueueMoveUp (VArray [VNumber 4])) fresh_client [] [] _ _
             eq_refl N9 N1).
  - apply (invoke_other_failure _ scripted 3
             (FreeSpace (VString "/srv")) fresh_client [] [] _ _
             eq_refl N9 N1).
Defined.

Lemma invoke_challenge_without_headers_witness :
  result (invoke scripted 3 SessionStats fresh_client
            [Failed (VObject [("response",
                               VObject [("status", VNumber 409)])]);
             ok torrents_body])
  = Some (Pending (VError TypeError)).
Proof.
  apply (invoke_challenge_without_headers _ scripted 3 SessionStats
           fresh_client
           [Failed (VObject [("response",
                              VObject [("status", VNumber 409)])]);
            ok torrents_body]
           [] _ _ (VError TypeError) eq_refl eq_refl eq_refl).
Defined.

Lemma invoke_unserialisable_arguments_witness :
  let keys := VObject [("filename", VString "a.torrent");
                       ("peer-limit", VPrim (PBigInt 50))] in
  result (invoke scripted 1 (AddTorrent keys) fresh_client
            [ok torrents_body])
  = Some (Rejected (VError TypeError)) /\
  exchanges (invoke scripted 1 (AddTorrent keys) fresh_client
               [ok torrents_body]) = [] /\
  server (invoke scripted 1 (AddTorrent keys) fresh_client
            [ok torrents_body]) = [ok torrents_body].
Proof.
  cbv zeta.
  apply (invoke_unserialisable_arguments _ scripted 0
           (AddTorrent (VObject [("filename", VString "a.torrent");
                                 ("peer-limit", VPrim (PBigInt 50))]))
           fresh_client [ok torrents_body] _ (VError TypeError)
           eq_refl eq_refl).
Defined.

Lemma invoke_request_bodies_witness :
  Forall (fun x : exchange =>
            req_data (fst x) =
            Some (JObj [("method", JStr "free-space");
                        ("arguments", JObj [("path", JStr "/srv")])]))
    (exchanges (invoke scripted 3 (FreeSpace (VString "/srv")) fresh_client
                  challenge_then_torrents)).
Proof.
  apply (invoke_request_bodies _ scripted 3 (FreeSpace (VString "/srv"))
           fresh_client challenge_then_torrents _
           (Some (JObj [("path", JStr "/srv")])) eq_refl eq_refl).
Defined.

Lemma only_portTest_shares_a_remote_method_witness :
  same_operation PortTest BlocklistUpdate = true \/
  (PortTest = PortTest /\ BlocklistUpdate = BlocklistUpdate) \/
  (PortTest = BlocklistUpdate /\ BlocklistUpdate = PortTest).
Proof.
  apply (only_portTest_shares_a_remote_method _ scripted 1 1
           PortTest BlocklistUpdate fresh_client fresh_client
           [ok torrents_body] [ok torrents_body] _ _
           eq_refl eq_refl eq_refl eq_refl eq_refl).
Defined.

Lemma success_resolves_with_arguments_witness :
  result (queue_operation scripted "queue-move-top" 3 fresh_client
            (VArray [VNumber 1]) challenge_then_torrents)
  = Some (Resolved (VObject [("torrents", VArray [])])).
Proof.
  destruct (success_resolves_with_arguments _ scripted 3 fresh_client
              challenge_then_torrents torrents_body
              (VObject [("torrents", VArray [])]) eq_refl eq_refl)
    as (_ & _ & Hqueue & _ & _).
  apply Hqueue. eexists [_]. eexists. eexists. split; reflexivity.
Defined.

Lemma non_success_set_get_and_queue_witness :
  VString "no such torrent" <> VString "success" /\
  result (setTorrents scripted 3 fresh_client
            (VObject [("ids", VNumber 9)]) [ok no_such_torrent])
  = Some (Resolved VNull) /\
  result (queue_operation scripted "queue-move-down" 3 fresh_client
            (VArray [VNumber 9]) [ok no_such_torrent])
  = Some (Resolved (VString "no such torrent")).
Proof.
  assert (Hn : VString "no such torrent" <> VString "success")
    by discriminate.
  split; [exact Hn|].
  destruct (non_success_set_get_and_queue _ scripted 3 fresh_client
              [ok no_such_torrent] no_such_torrent
              (VString "no such torrent") eq_refl Hn)
    as (Hset & _ & Hqueue).
  split.
  - apply Hset. exists []. eexists. eexists. split; reflexivity.
  - apply Hqueue. exists []. eexists. eexists. split; reflexivity.
Defined.

Lemma missing_body_is_a_TypeError_witness :
  result (keys_operation scripted "session-stats" 3 fresh_client VUndefined
            [ok VNull])
  = Some (Rejected (VError TypeError)).
Proof.
  destruct (missing_body_is_a_TypeError _ scripted 3 fresh_client
              [ok VNull] VNull eq_refl)
    as (_ & _ & Hkeys & _).
  apply Hkeys. exists []. eexists. eexists. split; reflexivity.
Defined.

Lemma disconnect_ignores_the_body_witness :
  result (disconnect scripted 3
            (set_sessionId fresh_client (VString "abc123"))
            [ok no_such_torrent])
  = Some (Resolved VUndefined) /\
  sessionId (client (disconnect scripted 3
                       (set_sessionId fresh_client (VString "abc123"))
                       [ok no_such_torrent]))
  = VNull.
Proof.
  apply (disconnect_ignores_the_body _ scripted 3
           (set_sessionId fresh_client (VString "abc123"))
           [ok no_such_torrent] no_such_torrent).
  exists []. eexists. eexists. split; reflexivity.
Defined.

Lemma truthy_ids_sent_as_mapping_witness :
  Forall (fun x : exchange =>
            req_data (fst x) =
            Some (JObj [("method", JStr "torrent-stop");
                        ("arguments",
                         JObj [("ids", JStr "recently-active")])]))
    (exchanges (stopTorrents scripted 3 fresh_client
                  (VString "recently-active") challenge_then_torrents)).
Proof.
  apply (truthy_ids_sent_as_mapping _ scripted 3 "torrent-stop"
           fresh_client challenge_then_torrents
           (VString "recently-active") (JStr "recently-active")
           eq_refl eq_refl).
Defined.

Lemma getTorrents_passes_arguments_witness :
  Forall (fun x : exchange =>
            req_data (fst x) =
            Some (JObj [("method", JStr "torrent-get");
                        ("arguments",
                         JObj [("fields", JNull); ("ids", JNull)])]))
    (exchanges (getTorrents scripted 3 fresh_client VNull VNull
                  challenge_then_torrents)).
Proof.
  apply (getTorrents_passes_arguments _ scripted 3 fresh_client
           challenge_then_torrents VNull VNull JNull JNull
           eq_refl eq_refl).
Defined.

Lemma http_handshake_converges_witness :
  exists data : value,
    result (http (daemon "abc123") 2 fresh_client "session-stats"
              VUndefined O)
    = Some (Resolved data) /\
    ((List.length
        (exchanges (http (daemon "abc123") 2 fresh_client "session-stats"
                      VUndefined O)) = 1%nat /\
      client (http (daemon "abc123") 2 fresh_client "session-stats"
                VUndefined O) = fresh_client)
     \/
     (List.length
        (exchanges (http (daemon "abc123") 2 fresh_client "session-stats"
                      VUndefined O)) = 2%nat /\
      sessionId (client (http (daemon "abc123") 2 fresh_client
                           "session-stats" VUndefined O))
      = VString "abc123")).
Proof.
  apply (http_handshake_converges _ (daemon "abc123")
           (fun _ => VString "abc123")
           (fun request _ =>
              strict_eq_string (session_header request) "abc123")
           0 fresh_client "session-stats" VUndefined None O eq_refl).
  - intros request s0 H. rewrite H. reflexivity.
  - intros request s0 H. unfold daemon. rewrite H.
    eexists. eexists. split; reflexivity.
  - intros request s0 H. unfold daemon. rewrite H.
    eexists. repeat split.
Defined.
